(** * mamarBank: the transaction views (transactions/views.py)

    A shallow embedding of the request handlers of [transactions/views.py]
    and the properties of the ledger they maintain.

    Modelling choices.
    - Money is a [Decimal] with two places in the source; it is represented
      here as an integer number of hundredths ([Z]), on which [+], [-], [<]
      and [>=] are exact as they are on [Decimal].
    - The database is three tables, each a finite map from the primary key to
      the row.  Account rows are keyed by the id of the owning user (the
      one-to-one column), so [user.account] is a lookup.
    - A Python model instance is a snapshot of its row: it is a value of the
      row type held in a local variable; [save] writes it back.
    - A view is a computation in a state-and-exception monad.  The state
      survives an exception: the views run in autocommit mode and nothing is
      rolled back. *)

From stdpp Require Import gmap strings list fin_maps.
From Stdlib Require Import ZArith Lia.

Local Open Scope Z_scope.

(** ** Data model *)

(** The transaction types of [constants.py]. *)
Inductive transaction_type : Type :=
  | DEPOSIT | WITHDRAWAL | LOAN | LOAN_PAID | TRANSFER | RECEIVE_MONEY.

#[global] Instance transaction_type_eq_dec : EqDecision transaction_type.
Proof. solve_decision. Defined.

(** Modelled from the spec: [constants.py] is absent.  The spec (section 6)
    lists the types in the order DEPOSIT, WITHDRAWAL, LOAN, LOAN_PAID,
    TRANSFER, RECEIVE_MONEY as stable integer codes, and section 4.3 gives 3
    as the stored code of the loan type. *)
Definition type_code (ty : transaction_type) : Z :=
  match ty with
  | DEPOSIT => 1
  | WITHDRAWAL => 2
  | LOAN => 3
  | LOAN_PAID => 4
  | TRANSFER => 5
  | RECEIVE_MONEY => 6
  end.

(** A row of the account table; [account_no] stands for the columns other
    than the balance. *)
Record Account : Type := mkAccount {
  account_no : Z;
  balance : Z
}.

(** A row of the transaction table.  [account] is the foreign key. *)
Record Transaction : Type := mkTransaction {
  account : Z;
  amount : Z;
  balance_after_transaction : Z;
  transaction_type_of : transaction_type;
  timestamp : Z;
  loan_approve : bool
}.

(** Messages flashed through [django.contrib.messages], by the source line
    that produces them; the payload is what the f-string interpolates. *)
Inductive message : Type :=
  | msg_deposited (amt : Z)            (* success, line 60 *)
  | msg_withdrawn (amt : Z)            (* success, line 77 *)
  | msg_loan_submitted (amt : Z)       (* success, line 95 *)
  | msg_loan_greater (amt : Z)         (* error, line 145 *)
  | msg_no_recipient (name : string)   (* error, line 175 *)
  | msg_insufficient.                  (* error, line 179 *)

(** One call of [send_transaction_email]. *)
Record Email : Type := mkEmail {
  email_to : Z;
  email_amount : Z;
  email_subject : string;
  email_template : string
}.

(** The world a request runs in. *)
Record World : Type := mkWorld {
  users : gmap string Z;              (* auth_user: username to user id *)
  accounts : gmap Z Account;
  transactions : gmap Z Transaction;
  clock : Z;
  outbox : list Email;
  flashed : list message
}.

(** ** Exceptions, responses and the view monad *)

Inductive exn : Type :=
  | Http404
  | NameError (name : string)
  | AttributeError (attr : string)
  | ValueError
  | RelatedObjectDoesNotExist      (* a user without an account row *)
  | User_DoesNotExist
  | Account_DoesNotExist.

Inductive response : Type :=
  | Redirect (to : string)
  | Render (template : string)
  | HttpResponseOf (body : string)
  | ReturnedNone.

Inductive result (A : Type) : Type :=
  | Ok (a : A)
  | Raise (e : exn).
Arguments Ok {A} a.
Arguments Raise {A} e.

Definition M (A : Type) : Type := World → result A * World.

#[global] Instance M_ret : MRet M := λ A a w, (Ok a, w).

#[global] Instance M_bind : MBind M := λ A B k c w,
  match c w with
  | (Ok a, w') => k a w'
  | (Raise e, w') => (Raise e, w')
  end.

Definition raise {A} (e : exn) : M A := λ w, (Raise e, w).

Definition get_world : M World := λ w, (Ok w, w).

Definition modify (f : World → World) : M unit := λ w, (Ok tt, f w).

(** [try c except e: h], for the one handler the views have. *)
Definition try_except {A} (c : M A) (catches : exn → bool) (h : M A) : M A :=
  λ w, match c w with
       | (Raise e, w') => if catches e then h w' else (Raise e, w')
       | r => r
       end.

(** ** The ORM and framework calls the views make *)

Definition set_accounts (f : gmap Z Account → gmap Z Account) (w : World) : World :=
  mkWorld (users w) (f (accounts w)) (transactions w) (clock w) (outbox w) (flashed w).

Definition set_transactions (f : gmap Z Transaction → gmap Z Transaction) (w : World) : World :=
  mkWorld (users w) (accounts w) (f (transactions w)) (clock w) (outbox w) (flashed w).

Definition set_balance (b : Z) (a : Account) : Account :=
  mkAccount (account_no a) b.

(** [account.save()]: every column is written from the instance. *)
Definition account_save (pk : Z) (obj : Account) : M unit :=
  modify (set_accounts (λ m, <[pk := obj]> m)).

(** [account.save(update_fields=['balance'])]: only the balance column. *)
Definition account_save_balance (pk : Z) (obj : Account) : M unit :=
  modify (set_accounts (λ m, alter (set_balance (balance obj)) pk m)).

(** The world with one more flashed message. *)
Definition add_flash (m : message) (w : World) : World :=
  mkWorld (users w) (accounts w) (transactions w) (clock w) (outbox w) (flashed w ++ [m]).

(** [messages.success] and [messages.error]. *)
Definition messages_add (m : message) : M unit :=
  modify (add_flash m).

(** [send_transaction_email(user, amount, subject, template)]. *)
Definition send_transaction_email (user : Z) (amt : Z) (subject template : string) : M unit :=
  modify (λ w, mkWorld (users w) (accounts w) (transactions w) (clock w)
                        (outbox w ++ [mkEmail user amt subject template]) (flashed w)).

(** [timezone.now()]: the clock is read and moves on. *)
Definition timezone_now : M Z :=
  λ w, (Ok (clock w),
        mkWorld (users w) (accounts w) (transactions w) (clock w + 1)
                (outbox w) (flashed w)).

(** The primary key an INSERT receives: one the table does not use. *)
Definition next_pk (m : gmap Z Transaction) : Z := fresh (dom m).

(** [Transaction.objects.create(...)]. *)
Definition Transaction_objects_create (t : Transaction) : M Z :=
  λ w, let pk := next_pk (transactions w) in
       (Ok pk, set_transactions (λ m, <[pk := t]> m) w).

(** The user of a request. *)
Inductive request_user : Type :=
  | AnonymousUser
  | Authenticated (uid : Z).

(** [user.account], the reverse of the one-to-one field, for a user row. *)
Definition user_account (uid : Z) : M (Z * Account) :=
  w ← get_world ;
  match accounts w !! uid with
  | Some a => mret (uid, a)
  | None => raise RelatedObjectDoesNotExist
  end.

(** [request.user.account]. *)
Definition request_user_account (u : request_user) : M (Z * Account) :=
  match u with
  | AnonymousUser => raise (AttributeError "account")
  | Authenticated uid => user_account uid
  end.

(** [User.objects.get(username=name)]. *)
Definition User_objects_get (name : string) : M Z :=
  w ← get_world ;
  match users w !! name with
  | Some uid => mret uid
  | None => raise User_DoesNotExist
  end.

(** [get_object_or_404(Transaction, id=pk)]. *)
Definition get_object_or_404 (pk : Z) : M Transaction :=
  w ← get_world ;
  match transactions w !! pk with
  | Some t => mret t
  | None => raise Http404
  end.

(** [loan.account]: the row the foreign key points to. *)
Definition transaction_account (t : Transaction) : M Account :=
  w ← get_world ;
  match accounts w !! account t with
  | Some a => mret a
  | None => raise Account_DoesNotExist
  end.

(** [loan.save()]. *)
Definition transaction_save (pk : Z) (t : Transaction) : M unit :=
  modify (set_transactions (λ m, <[pk := t]> m)).

Definition set_balance_after_transaction (b : Z) (t : Transaction) : Transaction :=
  mkTransaction (account t) (amount t) b (transaction_type_of t) (timestamp t) (loan_approve t).

Definition set_loan_approve (b : bool) (t : Transaction) : Transaction :=
  mkTransaction (account t) (amount t) (balance_after_transaction t)
                (transaction_type_of t) (timestamp t) b.

Definition set_transaction_type (ty : transaction_type) (t : Transaction) : Transaction :=
  mkTransaction (account t) (amount t) (balance_after_transaction t) ty
                (timestamp t) (loan_approve t).

(** [LoginRequiredMixin.dispatch]: an anonymous request is sent to the login
    page and the handler does not run. *)
Definition LoginRequiredMixin (u : request_user) (handler : M response) : M response :=
  match u with
  | AnonymousUser => mret (Redirect "login")
  | Authenticated _ => handler
  end.

Definition run {A} (c : M A) (w : World) : result A * World := c w.

(** ** The create views: deposit, withdrawal, loan request *)

(** Modelled from the spec: [forms.py] is absent.  The form of a create view
    is bound to [request.user.account] (line 39) and to the initial
    transaction type of the view; by the spec (sections 4.2 and 4.3) saving
    it creates one transaction of that type for that account, with the
    amount of the form, the balance the account instance has at that moment
    as the snapshot, and the approval flag unset.  [acct] is the instance
    the view has just mutated: the form holds the same object. *)
Definition form_save (ty : transaction_type) (amt : Z) (pk : Z) (acct : Account) : M Z :=
  now ← timezone_now;
  Transaction_objects_create
    (mkTransaction pk amt (balance acct) ty now false).

(** [CreateView.form_valid]: save the form, redirect to [success_url]. *)
Definition CreateView_form_valid (ty : transaction_type) (amt : Z) (pk : Z) (acct : Account)
  : M response :=
  form_save ty amt pk acct;;
  mret (Redirect "transaction_report").

(** [DepositMoneyView.form_valid], lines 55-62.  [amt] is
    [form.cleaned_data.get('amount')]. *)
Definition DepositMoneyView_form_valid (user : request_user) (amt : Z) : M response :=
  '(pk, account) ← request_user_account user;
  let account := set_balance (balance account + amt) account in
  account_save_balance pk account;;
  messages_add (msg_deposited amt);;
  send_transaction_email pk amt "Deposit Message" "transactions/deposit_email.html";;
  CreateView_form_valid DEPOSIT amt pk account.

(** [WithdrawMoneyView.form_valid], lines 72-79. *)
Definition WithdrawMoneyView_form_valid (user : request_user) (amt : Z) : M response :=
  '(pk, account) ← request_user_account user;
  let account := set_balance (balance account - amt) account in
  account_save_balance pk account;;
  messages_add (msg_withdrawn amt);;
  send_transaction_email pk amt "Withdrawl Message" "transactions/withdraw_email.html";;
  CreateView_form_valid WITHDRAWAL amt pk account.

(** The queryset of lines 91-92:
    [filter(account=..., transaction_type=3, loan_approve=True)]. *)
Definition approved_loans (pk : Z) (m : gmap Z Transaction) : gmap Z Transaction :=
  filter (λ kt, account kt.2 = pk
                ∧ type_code (transaction_type_of kt.2) = 3
                ∧ loan_approve kt.2 = true) m.

(** [.count()] of that queryset. *)
Definition current_loan_count (pk : Z) (w : World) : nat :=
  size (approved_loans pk (transactions w)).

(** [LoanRequestView.form_valid], lines 89-100.  The name [HttpResponse] is
    not imported by the module, so evaluating it on line 94 raises. *)
Definition LoanRequestView_form_valid (user : request_user) (amt : Z) : M response :=
  '(pk, account) ← request_user_account user;
  w ← get_world;
  if bool_decide (3 ≤ current_loan_count pk w)%nat then
    raise (NameError "HttpResponse")
  else
    messages_add (msg_loan_submitted amt);;
    send_transaction_email pk amt "Loan Request" "transactions/loan_email.html";;
    CreateView_form_valid LOAN amt pk account.

(** ** Paying a loan *)

(** [PayLoanView.get], lines 131-146. *)
Definition PayLoanView_get (user : request_user) (loan_id : Z) : M response :=
  loan ← get_object_or_404 loan_id;
  if loan_approve loan then
    user_account ← transaction_account loan;
    if bool_decide (amount loan < balance user_account) then
      let user_account := set_balance (balance user_account - amount loan) user_account in
      let loan := set_balance_after_transaction (balance user_account) loan in
      account_save (account loan) user_account;;
      let loan := set_loan_approve true loan in
      let loan := set_transaction_type LOAN_PAID loan in
      transaction_save loan_id loan;;
      mret (Redirect "loan_list")
    else
      messages_add (msg_loan_greater (amount loan));;
      mret (Redirect "loan_list")
  else
    mret (Redirect "loan_list").

(** The view as routed: [PayLoanView] has [LoginRequiredMixin]. *)
Definition PayLoanView (user : request_user) (loan_id : Z) : M response :=
  LoginRequiredMixin user (PayLoanView_get user loan_id).

(** [LoanListView.get_queryset], lines 152-155. *)
Definition LoanListView_get_queryset (user : request_user) : M (gmap Z Transaction) :=
  '(pk, _) ← request_user_account user;
  w ← get_world;
  mret (filter (λ kt, account kt.2 = pk ∧ type_code (transaction_type_of kt.2) = 3)
               (transactions w)).

(** ** Transfers *)

(** [TransferMoneyView.get], lines 162-164. *)
Definition TransferMoneyView_get : M response :=
  mret (Render "transactions/transfer_balance.html").

(** [TransferMoneyView.post], lines 166-202.  [form] is the cleaned data of
    [TransferMoneyForm(data=request.POST)] when the form is valid: the
    recipient's username and the amount.  The form is built from the posted
    data alone.  When it is not valid the method falls off its end.  The
    view has no [LoginRequiredMixin].  The two [create] calls pass no
    [loan_approve]; the rows get the default of the column, unset. *)
Definition TransferMoneyView_post (user : request_user) (form : option (string * Z))
  : M response :=
  match form with
  | Some (recipient_username, amt) =>
      found ← try_except
        (recipient_user ← User_objects_get recipient_username;
         '(rpk, recipient_account) ← user_account recipient_user;
         mret (Some (recipient_user, rpk, recipient_account)))
        (λ e, match e with User_DoesNotExist => true | _ => false end)
        (messages_add (msg_no_recipient recipient_username);;
         mret None);
      match found with
      | None => mret (Redirect "transfer")
      | Some (recipient_user, rpk, recipient_account) =>
          '(spk, sender_account) ← request_user_account user;
          if bool_decide (balance sender_account < amt) then
            messages_add msg_insufficient;;
            mret (Redirect "transfer")
          else
            let sender_account := set_balance (balance sender_account - amt) sender_account in
            account_save spk sender_account;;
            send_transaction_email spk amt "Send Money" "transactions/send_money.html";;
            let recipient_account :=
              set_balance (balance recipient_account + amt) recipient_account in
            account_save rpk recipient_account;;
            send_transaction_email recipient_user amt "Recived Money"
                                   "transactions/receive_money.html";;
            now ← timezone_now;
            sender_transaction ← Transaction_objects_create
              (mkTransaction spk amt (balance sender_account) TRANSFER now false);
            now ← timezone_now;
            recipient_transaction ← Transaction_objects_create
              (mkTransaction rpk amt (balance recipient_account) RECEIVE_MONEY now false);
            mret (Redirect "transfer")
      end
  | None => mret ReturnedNone
  end.

(** ** The transaction report *)

Section Report.

(** [datetime.strptime(s, '%Y-%m-%d')] of the Python library: the parsed
    datetime in seconds, or [None] where it raises [ValueError]. *)
Variable strptime : string → option Z.

Definition datetime_strptime (s : string) : M Z :=
  match strptime s with
  | Some dt => mret dt
  | None => raise ValueError
  end.

(** [dt.date()], and the [__date] transform of a timestamp. *)
Definition datetime_date (dt : Z) : Z := dt `div` 86400.

(** [dt.dend]: a datetime has no such attribute. *)
Definition datetime_dend (dt : Z) : M Z := raise (AttributeError "dend").

(** Truth value of [request.GET.get(key)]: a present, non-empty string. *)
Definition truthy (o : option string) : bool :=
  match o with
  | Some s => negb (String.eqb s "")
  | None => false
  end.

(** [filter(timestamp__date__gte=start_date, timestamp__date__lte=end_date)]. *)
Definition in_date_range (start_date end_date : Z) (m : gmap Z Transaction)
  : gmap Z Transaction :=
  filter (λ kt, start_date ≤ datetime_date (timestamp kt.2)
                ∧ datetime_date (timestamp kt.2) ≤ end_date) m.

(** [aggregate(Sum('amount'))['amount__sum']]: [None] over no rows. *)
Definition amount_sum (m : gmap Z Transaction) : option Z :=
  if decide (m = ∅) then None
  else Some (map_fold (λ _ t acc, amount t + acc) 0 m).

(** [TransactionReportView.get_queryset], lines 107-123.  The result is the
    queryset together with the value left in [self.balance]. *)
Definition TransactionReportView_get_queryset
    (user : request_user) (start_date_str end_date_str : option string)
  : M (gmap Z Transaction * option Z) :=
  '(pk, _) ← request_user_account user;
  w ← get_world;
  let queryset := filter (λ kt, account kt.2 = pk) (transactions w) in
  if truthy start_date_str && truthy end_date_str then
    start_dt ← datetime_strptime (default "" start_date_str);
    let start_date := datetime_date start_dt in
    end_dt ← datetime_strptime (default "" end_date_str);
    end_date ← datetime_dend end_dt;
    let queryset := in_date_range start_date end_date queryset in
    w ← get_world;
    let balance := amount_sum (in_date_range start_date end_date (transactions w)) in
    mret (queryset, balance)
  else
    '(_, account) ← request_user_account user;
    mret (queryset, Some (balance account)).

(** The view as routed: [TransactionReportView] has [LoginRequiredMixin];
    the handler renders the list. *)
Definition TransactionReportView
    (user : request_user) (start_date_str end_date_str : option string) : M response :=
  LoginRequiredMixin user
    (TransactionReportView_get_queryset user start_date_str end_date_str;;
     mret (Render "transactions/transaction_report.html")).

(** ** Every operation of the module *)

Inductive operation : Type :=
  | op_deposit (amt : Z)
  | op_withdraw (amt : Z)
  | op_loan_request (amt : Z)
  | op_report (start_date_str end_date_str : option string)
  | op_pay_loan (loan_id : Z)
  | op_loan_list
  | op_transfer_get
  | op_transfer_post (form : option (string * Z)).

Definition perform (user : request_user) (op : operation) : M response :=
  match op with
  | op_deposit amt => LoginRequiredMixin user (DepositMoneyView_form_valid user amt)
  | op_withdraw amt => LoginRequiredMixin user (WithdrawMoneyView_form_valid user amt)
  | op_loan_request amt => LoginRequiredMixin user (LoanRequestView_form_valid user amt)
  | op_report s e => TransactionReportView user s e
  | op_pay_loan loan_id => PayLoanView user loan_id
  | op_loan_list =>
      LoginRequiredMixin user
        (LoanListView_get_queryset user;; mret (Render "transactions/loan_request.html"))
  | op_transfer_get => TransferMoneyView_get
  | op_transfer_post form => TransferMoneyView_post user form
  end.

End Report.

(** * Vocabulary of the properties *)

(** The ledger after a loan is paid from account row [A]. *)
Definition loan_paid (loan_id : Z) (L : Transaction) (A : Account) (w : World) : World :=
  set_transactions
    (λ m, <[loan_id := mkTransaction (account L) (amount L) (balance A - amount L)
                                     LOAN_PAID (timestamp L) true]> m)
    (set_accounts (λ m, <[account L := mkAccount (account_no A) (balance A - amount L)]> m) w).

(** The ways [TransferMoneyView.post] turns a valid form down, with the
    message it flashes. *)
Inductive transfer_rejection (w : World) (user : request_user) (name : string) (amt : Z)
  : message → Prop :=
  | reject_no_recipient :
      users w !! name = None →
      transfer_rejection w user name amt (msg_no_recipient name)
  | reject_insufficient (rid spk : Z) (Ra Sa : Account) :
      users w !! name = Some rid →
      accounts w !! rid = Some Ra →
      user = Authenticated spk →
      accounts w !! spk = Some Sa →
      balance Sa < amt →
      transfer_rejection w user name amt msg_insufficient.

(** The two rows a transfer of [amt] from account [spk] (row [Sa]) to account
    [rpk] (row [Ra]) adds, and the two balances it leaves. *)
Definition transfer_done (w w' : World) (spk rpk amt : Z) (Sa Ra : Account) : Prop :=
  balance <$> accounts w' !! spk = Some (balance Sa - amt)
  ∧ balance <$> accounts w' !! rpk = Some (balance Ra + amt)
  ∧ ∃ (k1 k2 ts1 ts2 : Z),
      transactions w !! k1 = None ∧ transactions w !! k2 = None ∧ k1 ≠ k2
      ∧ transactions w'
        = <[k2 := mkTransaction rpk amt (balance Ra + amt) RECEIVE_MONEY ts2 false]>
            (<[k1 := mkTransaction spk amt (balance Sa - amt) TRANSFER ts1 false]>
               (transactions w)).

(** The count as the spec words it in section 4.3: the rows of the loan
    type of the account, whatever their approval flag. *)
Definition loan_type_rows (pk : Z) (m : gmap Z Transaction) : gmap Z Transaction :=
  filter (λ kt, account kt.2 = pk ∧ transaction_type_of kt.2 = LOAN) m.



(** C3 as the spec words it, for a record [L] found by id with account row
    [A]: the paying branch when the flag is set and the amount is below the
    balance, and otherwise, when the amount is not below the balance, the
    error and no change. *)
Definition pay_loan_as_claimed (w : World) (user : request_user) (loan_id : Z)
    (L : Transaction) (A : Account) : Prop :=
  (loan_approve L = true → amount L < balance A →
     run (PayLoanView_get user loan_id) w
     = (Ok (Redirect "loan_list"), loan_paid loan_id L A w))
  ∧ (balance A ≤ amount L →
     run (PayLoanView_get user loan_id) w
     = (Ok (Redirect "loan_list"), add_flash (msg_loan_greater (amount L)) w)).

(** C7 as the spec words it: the message for an unknown recipient whenever
    the username resolves to no user, and the message for insufficient
    funds whenever the amount is above the sender's balance, each with
    nothing else done. *)
Definition transfer_fails_as_claimed (w : World) (user : request_user) (name : string)
    (amt : Z) : Prop :=
  (users w !! name = None →
     run (TransferMoneyView_post user (Some (name, amt))) w
     = (Ok (Redirect "transfer"), add_flash (msg_no_recipient name) w))
  ∧ (∀ spk Sa, user = Authenticated spk → accounts w !! spk = Some Sa → balance Sa < amt →
     run (TransferMoneyView_post user (Some (name, amt))) w
     = (Ok (Redirect "transfer"), add_flash msg_insufficient w)).

(** The rows the limit check counts, in the words of the amended C4: of the
    account, of the loan type, approved. *)
Definition approved_loan_rows (pk : Z) (m : gmap Z Transaction) : gmap Z Transaction :=
  filter (λ kt, account kt.2 = pk
                ∧ transaction_type_of kt.2 = LOAN
                ∧ loan_approve kt.2 = true) m.

(** ** Sequences of requests and ledger invariants *)

(** Requests served one after another, each by its own user.  A request
    that raises leaves the world it had reached. *)
Fixpoint perform_all (strptime : string → option Z)
    (reqs : list (request_user * operation)) (w : World) : World :=
  match reqs with
  | [] => w
  | (user, op) :: reqs => perform_all strptime reqs (run (perform strptime user op) w).2
  end.

(** No account is overdrawn. *)
Definition balances_nonneg (w : World) : Prop :=
  map_Forall (λ _ a, 0 ≤ balance a) (accounts w).

(** The operations that cannot overdraw: all but the withdrawal, with an
    amount that is not negative where they take one. *)
Definition overdraft_free (op : operation) : Prop :=
  match op with
  | op_deposit amt => 0 ≤ amt
  | op_withdraw _ => False
  | op_transfer_post (Some (_, amt)) => 0 ≤ amt
  | _ => True
  end.

(** How a record [t] can look, as [t'], after any number of requests: the
    type is what it was or LOAN_PAID, the snapshot is free, the rest is
    fixed. *)
Definition record_evolves (t t' : Transaction) : Prop :=
  account t' = account t
  ∧ amount t' = amount t
  ∧ timestamp t' = timestamp t
  ∧ loan_approve t' = loan_approve t
  ∧ (transaction_type_of t' = transaction_type_of t
     ∨ transaction_type_of t' = LOAN_PAID).

(** ** Example worlds *)

(** Two customers; amounts are in hundredths, so alice holds 100.00. *)
Definition bank0 : World :=
  mkWorld {[ "alice" := 1; "bob" := 2 ]}
          {[ 1 := mkAccount 11 10000; 2 := mkAccount 22 0 ]}
          ∅ 0 [] [].

(** [bank0] after three loans of alice were requested and approved. *)
Definition bank_approved : World :=
  set_transactions
    (λ _, {[ 1 := mkTransaction 1 3000 10000 LOAN 10 true;
             2 := mkTransaction 1 6000 10000 LOAN 20 true;
             3 := mkTransaction 1 7000 10000 LOAN 30 true ]})
    bank0.

(** [bank0] after three loans of alice were requested and none approved. *)
Definition bank_pending : World :=
  set_transactions
    (λ _, {[ 1 := mkTransaction 1 5000 10000 LOAN 10 false;
             2 := mkTransaction 1 6000 10000 LOAN 20 false;
             3 := mkTransaction 1 7000 10000 LOAN 30 false ]})
    bank0.

(** The values [datetime.strptime(s, '%Y-%m-%d')] has on two strings, for
    the examples: midnight of the day, in seconds. *)
Definition strptime_sample (s : string) : option Z :=
  if decide (s = "2024-01-01") then Some 1704067200
  else if decide (s = "2024-01-31") then Some 1706659200
  else None.

(** [bank0] after a deposit of alice and one of bob in January 2024. *)
Definition bank_january : World :=
  set_transactions
    (λ _, {[ 1 := mkTransaction 1 2500 10000 DEPOSIT 1704880800 false;
             2 := mkTransaction 2 4000 4000 DEPOSIT 1705312800 false ]})
    bank0.

(** [bank0] with one loan of alice, of twice her balance and not approved. *)
Definition bank_big_loan : World :=
  set_transactions
    (λ _, {[ 1 := mkTransaction 1 20000 10000 LOAN 10 false ]})
    bank0.


(** [bank0] with a third user, carol, for whom no account row exists. *)
Definition bank_carol : World :=
  mkWorld {[ "alice" := 1; "bob" := 2; "carol" := 3 ]}
          (accounts bank0) ∅ 0 [] [].

(** * Properties *)

(** ** Running a view *)

Section RunLemmas.
Context {A B : Type}.

Lemma run_bind (c : M A) (k : A → M B) (w : World) :
  run (c ≫= k) w =
  match run c w with
  | (Ok a, w') => run (k a) w'
  | (Raise e, w') => (Raise e, w')
  end.
Proof. reflexivity. Qed.

Lemma run_ret (a : A) (w : World) : run (mret a) w = (Ok a, w).
Proof. reflexivity. Qed.

Lemma run_raise (e : exn) (w : World) : run (raise e : M A) w = (Raise e, w).
Proof. reflexivity. Qed.
End RunLemmas.

Lemma run_get_world (w : World) : run get_world w = (Ok w, w).
Proof. reflexivity. Qed.

Lemma run_modify (f : World → World) (w : World) : run (modify f) w = (Ok tt, f w).
Proof. reflexivity. Qed.

Lemma run_messages_add (m : message) (w : World) :
  run (messages_add m) w = (Ok tt, add_flash m w).
Proof. reflexivity. Qed.

Lemma run_get_object_or_404 (pk : Z) (w : World) :
  run (get_object_or_404 pk) w =
  match transactions w !! pk with
  | Some t => (Ok t, w)
  | None => (Raise Http404, w)
  end.
Proof.
  unfold get_object_or_404. rewrite run_bind, run_get_world.
  destruct (transactions w !! pk); reflexivity.
Qed.

Lemma run_transaction_account (t : Transaction) (w : World) :
  run (transaction_account t) w =
  match accounts w !! account t with
  | Some a => (Ok a, w)
  | None => (Raise Account_DoesNotExist, w)
  end.
Proof.
  unfold transaction_account. rewrite run_bind, run_get_world.
  destruct (accounts w !! account t); reflexivity.
Qed.

Lemma run_user_account (uid : Z) (w : World) :
  run (user_account uid) w =
  match accounts w !! uid with
  | Some a => (Ok (uid, a), w)
  | None => (Raise RelatedObjectDoesNotExist, w)
  end.
Proof.
  unfold user_account. rewrite run_bind, run_get_world.
  destruct (accounts w !! uid); reflexivity.
Qed.

Lemma run_User_objects_get (name : string) (w : World) :
  run (User_objects_get name) w =
  match users w !! name with
  | Some uid => (Ok uid, w)
  | None => (Raise User_DoesNotExist, w)
  end.
Proof.
  unfold User_objects_get. rewrite run_bind, run_get_world.
  destruct (users w !! name); reflexivity.
Qed.

Lemma run_try_except {A} (c : M A) (catches : exn → bool) (h : M A) (w : World) :
  run (try_except c catches h) w =
  match run c w with
  | (Raise e, w') => if catches e then run h w' else (Raise e, w')
  | r => r
  end.
Proof. reflexivity. Qed.

Lemma run_timezone_now (w : World) :
  run timezone_now w
  = (Ok (clock w),
     mkWorld (users w) (accounts w) (transactions w) (clock w + 1) (outbox w) (flashed w)).
Proof. reflexivity. Qed.

Lemma run_Transaction_objects_create (t : Transaction) (w : World) :
  run (Transaction_objects_create t) w
  = (Ok (next_pk (transactions w)),
     set_transactions (λ m, <[next_pk (transactions w) := t]> m) w).
Proof. reflexivity. Qed.

(** One step of symbolic execution, and the projections of the world that
    results. *)
Ltac world_simpl :=
  unfold set_accounts, set_transactions, add_flash;
  cbn [accounts transactions users clock outbox flashed fst snd balance set_balance].

Ltac run_step :=
  rewrite ?run_bind, ?run_modify, ?run_ret, ?run_raise, ?run_get_world,
          ?run_timezone_now, ?run_Transaction_objects_create;
  cbv beta iota; world_simpl.

Ltac run_simpl := repeat progress run_step.

(** ** PayLoan (claims C3 and C10) *)

Lemma run_pay_loan_paid (w : World) (user : request_user) (loan_id : Z)
    (L : Transaction) (A : Account) :
  transactions w !! loan_id = Some L →
  loan_approve L = true →
  accounts w !! account L = Some A →
  amount L < balance A →
  run (PayLoanView_get user loan_id) w
  = (Ok (Redirect "loan_list"), loan_paid loan_id L A w).
Proof.
  intros HL Happ HA Hlt. unfold PayLoanView_get.
  rewrite run_bind, run_get_object_or_404, HL, Happ.
  rewrite run_bind, run_transaction_account, HA.
  rewrite bool_decide_eq_true_2 by exact Hlt. reflexivity.
Qed.

(** C3, as amended.  For a loan record [L] found by id, with account row
    [A]: when [loan_approve] is set and [amount L < balance A], PayLoan
    writes the account with the balance lowered by the amount and writes the
    record with the new balance as snapshot, the type LOAN_PAID and the flag
    still set; when [loan_approve] is set and [amount L >= balance A] it
    flashes the error and leaves accounts and records as they were; when
    [loan_approve] is not set it flashes nothing and leaves accounts and
    records as they were, whatever the amount. *)
Theorem pay_loan_by_cases (w : World) (user : request_user) (loan_id : Z)
    (L : Transaction) (A : Account) :
  transactions w !! loan_id = Some L →
  accounts w !! account L = Some A →
  (loan_approve L = true → amount L < balance A →
     run (PayLoanView_get user loan_id) w
     = (Ok (Redirect "loan_list"), loan_paid loan_id L A w))
  ∧ (loan_approve L = true → balance A ≤ amount L →
     run (PayLoanView_get user loan_id) w
     = (Ok (Redirect "loan_list"), add_flash (msg_loan_greater (amount L)) w))
  ∧ (loan_approve L = false →
     run (PayLoanView_get user loan_id) w = (Ok (Redirect "loan_list"), w)).
Proof.
  intros HL HA. split; [|split].
  - intros Happ Hlt. by apply run_pay_loan_paid.
  - intros Happ Hge. unfold PayLoanView_get.
    rewrite run_bind, run_get_object_or_404, HL, Happ.
    rewrite run_bind, run_transaction_account, HA.
    rewrite bool_decide_eq_false_2 by lia. reflexivity.
  - intros Happ. unfold PayLoanView_get.
    rewrite run_bind, run_get_object_or_404, HL, Happ. reflexivity.
Qed.

(** C3 as stated fails: alice's loan of 200.00 against a balance of 100.00
    is found by id and its amount is not below the balance, but it is not
    approved, and PayLoan redirects without the error message. *)
Lemma pay_loan_unapproved_reports_nothing :
  transactions bank_big_loan !! 1 = Some (mkTransaction 1 20000 10000 LOAN 10 false)
  ∧ accounts bank_big_loan !! 1 = Some (mkAccount 11 10000)
  ∧ run (PayLoanView_get (Authenticated 1) 1) bank_big_loan
    = (Ok (Redirect "loan_list"), bank_big_loan)
  ∧ ¬ pay_loan_as_claimed bank_big_loan (Authenticated 1) 1
        (mkTransaction 1 20000 10000 LOAN 10 false) (mkAccount 11 10000).
Proof.
  split; [reflexivity|]. split; [reflexivity|]. split; [reflexivity|].
  intros [_ Herr].
  pose proof (Herr ltac:(simpl; lia)) as Hrun.
  apply (f_equal (λ r, flashed r.2)) in Hrun. discriminate Hrun.
Qed.

(** Every run of PayLoan either leaves both tables alone or pays the loan. *)
Lemma pay_loan_cases (w : World) (user : request_user) (loan_id : Z) :
  (transactions (run (PayLoanView_get user loan_id) w).2 = transactions w
   ∧ accounts (run (PayLoanView_get user loan_id) w).2 = accounts w)
  ∨ (∃ L A, transactions w !! loan_id = Some L
            ∧ loan_approve L = true
            ∧ accounts w !! account L = Some A
            ∧ amount L < balance A
            ∧ run (PayLoanView_get user loan_id) w
              = (Ok (Redirect "loan_list"), loan_paid loan_id L A w)).
Proof.
  unfold PayLoanView_get.
  rewrite run_bind, run_get_object_or_404.
  destruct (transactions w !! loan_id) as [L|] eqn:HL; [|left; done].
  destruct (loan_approve L) eqn:Happ; [|left; done].
  rewrite run_bind, run_transaction_account.
  destruct (accounts w !! account L) as [A|] eqn:HA; [|left; done].
  destruct (decide (amount L < balance A)) as [Hlt|Hge].
  - right. exists L, A. rewrite bool_decide_eq_true_2 by exact Hlt. done.
  - left. rewrite bool_decide_eq_false_2 by exact Hge. done.
Qed.

(** C10.  PayLoan does not look at the requesting user: two authenticated
    users running it on the same loan id in the same world get the same
    response and the same world.  The account it reads and debits is the one
    the loan record refers to: when the record is approved and its amount is
    below the balance of that account, that account row ends with the
    balance lowered by the amount; and no other account row, the
    requester's included, is ever changed. *)
Theorem pay_loan_ignores_requester (w : World) (u1 u2 : Z) (loan_id : Z) :
  run (PayLoanView (Authenticated u1) loan_id) w
  = run (PayLoanView (Authenticated u2) loan_id) w
  ∧ (∀ (L : Transaction) (A : Account),
       transactions w !! loan_id = Some L →
       loan_approve L = true →
       accounts w !! account L = Some A →
       amount L < balance A →
       accounts (run (PayLoanView (Authenticated u1) loan_id) w).2 !! account L
       = Some (mkAccount (account_no A) (balance A - amount L)))
  ∧ (∀ (L : Transaction) (k : Z),
       transactions w !! loan_id = Some L →
       k ≠ account L →
       accounts (run (PayLoanView (Authenticated u1) loan_id) w).2 !! k
       = accounts w !! k).
Proof.
  split; [reflexivity|]. split.
  - intros L A HL Happ HA Hlt. unfold PayLoanView, LoginRequiredMixin.
    rewrite (run_pay_loan_paid w (Authenticated u1) loan_id L A HL Happ HA Hlt).
    unfold loan_paid. world_simpl. apply lookup_insert_eq.
  - intros L k HL Hk. unfold PayLoanView, LoginRequiredMixin.
    destruct (pay_loan_cases w (Authenticated u1) loan_id)
      as [[_ Hacc]|(L' & A & HL' & _ & _ & _ & Hrun)].
    + by rewrite Hacc.
    + rewrite Hrun. simpl. rewrite lookup_insert_ne; [done|].
      congruence.
Qed.

(** ** Creating rows *)

Lemma next_pk_fresh (m : gmap Z Transaction) : m !! next_pk m = None.
Proof. unfold next_pk. apply not_elem_of_dom. apply (is_fresh (dom m)). Qed.

Lemma lookup_insert_next_pk (m : gmap Z Transaction) (t t0 : Transaction) (k : Z) :
  m !! k = Some t0 → <[next_pk m := t]> m !! k = Some t0.
Proof.
  intros Hk. rewrite lookup_insert_ne; [done|].
  intros <-. rewrite next_pk_fresh in Hk. discriminate.
Qed.

Lemma run_form_save (ty : transaction_type) (amt pk : Z) (acct : Account) (w : World) :
  run (form_save ty amt pk acct) w
  = (Ok (next_pk (transactions w)),
     mkWorld (users w) (accounts w)
             (<[next_pk (transactions w)
                := mkTransaction pk amt (balance acct) ty (clock w) false]>
                (transactions w))
             (clock w + 1) (outbox w) (flashed w)).
Proof. unfold form_save. run_simpl. reflexivity. Qed.

(** ** Withdrawal (claim C2) *)

(** What [WithdrawMoneyView.form_valid] does for a user with account row
    [A], whatever the amount: no comparison with the balance is made. *)
Lemma withdraw_form_valid_run (w : World) (pk amt : Z) (A : Account) :
  accounts w !! pk = Some A →
  let r := run (WithdrawMoneyView_form_valid (Authenticated pk) amt) w in
  r.1 = Ok (Redirect "transaction_report")
  ∧ accounts r.2 = <[pk := mkAccount (account_no A) (balance A - amt)]> (accounts w)
  ∧ transactions r.2
    = <[next_pk (transactions w)
        := mkTransaction pk amt (balance A - amt) WITHDRAWAL (clock w) false]>
        (transactions w).
Proof.
  intros HA. unfold WithdrawMoneyView_form_valid, request_user_account.
  rewrite run_bind, run_user_account, HA. cbv zeta beta iota.
  unfold account_save_balance, messages_add, send_transaction_email,
    CreateView_form_valid.
  run_simpl. rewrite run_form_save. run_simpl. world_simpl.
  split; [done|]. split; [|done].
  apply map_eq. intros k. rewrite lookup_alter, lookup_insert.
  destruct (decide (pk = k)) as [->|]; [|done].
  by rewrite HA.
Qed.

(** ** Transfers (claims C1 and C7) *)

(** A rejected transfer is a redirect with the message flashed and nothing
    else done. *)
Lemma run_transfer_rejection (w : World) (user : request_user) (name : string) (amt : Z)
    (err : message) :
  transfer_rejection w user name amt err →
  run (TransferMoneyView_post user (Some (name, amt))) w
  = (Ok (Redirect "transfer"), add_flash err w).
Proof.
  intros Hrej. unfold TransferMoneyView_post.
  rewrite run_bind, run_try_except, run_bind, run_User_objects_get.
  destruct Hrej as [Hnone | rid spk Ra Sa Hname HR -> HS Hlt].
  - rewrite Hnone. cbv beta iota.
    unfold messages_add. run_simpl. reflexivity.
  - rewrite Hname. cbv beta iota.
    rewrite run_bind, run_user_account, HR. run_simpl.
    unfold request_user_account. rewrite run_user_account, HS.
    cbv beta iota. rewrite bool_decide_eq_true_2 by exact Hlt.
    unfold messages_add. run_simpl. reflexivity.
Qed.

(** Whenever the amount is above the sender's balance the ledger is left
    alone, whatever the recipient name resolves to. *)
Lemma transfer_over_balance_is_inert (w : World) (spk : Z) (Sa : Account)
    (name : string) (amt : Z) :
  accounts w !! spk = Some Sa →
  balance Sa < amt →
  accounts (run (TransferMoneyView_post (Authenticated spk) (Some (name, amt))) w).2
  = accounts w
  ∧ transactions (run (TransferMoneyView_post (Authenticated spk) (Some (name, amt))) w).2
    = transactions w.
Proof.
  intros HS Hlt.
  destruct (users w !! name) as [rid|] eqn:Hname.
  - destruct (accounts w !! rid) as [Ra|] eqn:HR.
    + rewrite (run_transfer_rejection w (Authenticated spk) name amt msg_insufficient
                 (reject_insufficient w _ name amt rid spk Ra Sa Hname HR eq_refl HS Hlt)).
      done.
    + unfold TransferMoneyView_post.
      rewrite run_bind, run_try_except, run_bind, run_User_objects_get, Hname.
      cbv beta iota. rewrite run_bind, run_user_account, HR. done.
  - rewrite (run_transfer_rejection w (Authenticated spk) name amt _
               (reject_no_recipient w _ name amt Hname)).
    done.
Qed.

(** C7, as amended.  A transfer whose recipient username resolves to no
    user is turned down with the message for an unknown recipient; a
    transfer whose recipient username resolves to a user with an account
    and whose amount is above the sender's balance is turned down with the
    message for insufficient funds; nothing else is done.  And whenever the
    username resolves to no user or the amount is above the sender's
    balance, no account row and no transaction row changes. *)
Theorem transfer_rejected (w : World) (user : request_user) (name : string) (amt : Z) :
  (∀ err, transfer_rejection w user name amt err →
     run (TransferMoneyView_post user (Some (name, amt))) w
     = (Ok (Redirect "transfer"), add_flash err w))
  ∧ (users w !! name = None
     ∨ (∃ spk Sa, user = Authenticated spk ∧ accounts w !! spk = Some Sa ∧ balance Sa < amt) →
     accounts (run (TransferMoneyView_post user (Some (name, amt))) w).2 = accounts w
     ∧ transactions (run (TransferMoneyView_post user (Some (name, amt))) w).2
       = transactions w).
Proof.
  split.
  - intros err Hrej. by apply run_transfer_rejection.
  - intros [Hnone|(spk & Sa & -> & HS & Hlt)].
    + rewrite (run_transfer_rejection w user name amt _
                 (reject_no_recipient w user name amt Hnone)).
      done.
    + by apply (transfer_over_balance_is_inert w spk Sa).
Qed.

(** C7 as stated fails for the amount above the balance.  From bob, who
    holds nothing, 30.00 to the unknown "dave" is turned down as an unknown
    recipient, not for insufficient funds; and from alice 200.00 to carol,
    a user without an account row, raises and flashes nothing. *)
Lemma transfer_over_balance_other_outcomes :
  run (TransferMoneyView_post (Authenticated 2) (Some ("dave", 3000))) bank0
  = (Ok (Redirect "transfer"), add_flash (msg_no_recipient "dave") bank0)
  ∧ ¬ transfer_fails_as_claimed bank0 (Authenticated 2) "dave" 3000
  ∧ run (TransferMoneyView_post (Authenticated 1) (Some ("carol", 20000))) bank_carol
    = (Raise RelatedObjectDoesNotExist, bank_carol)
  ∧ ¬ transfer_fails_as_claimed bank_carol (Authenticated 1) "carol" 20000.
Proof.
  split; [reflexivity|]. split; [|split; [reflexivity|]].
  - intros [_ Hins].
    pose proof (Hins 2 (mkAccount 22 0) eq_refl eq_refl ltac:(simpl; lia)) as Hrun.
    apply (f_equal (λ r, flashed r.2)) in Hrun. discriminate Hrun.
  - intros [_ Hins].
    pose proof (Hins 1 (mkAccount 11 10000) eq_refl eq_refl ltac:(simpl; lia)) as Hrun.
    apply (f_equal fst) in Hrun. discriminate Hrun.
Qed.

(** X17.  Between two different accounts a transfer within the sender's
    balance lowers the sender's balance by the amount, raises the
    recipient's by it, adds exactly two records (a TRANSFER of the sender
    and a RECEIVE_MONEY of the recipient, each with the amount and the new
    balance of its account) and touches no third account. *)
Lemma transfer_between_distinct (w : World) (spk rid amt : Z) (name : string)
    (Sa Ra : Account) :
  users w !! name = Some rid →
  accounts w !! rid = Some Ra →
  accounts w !! spk = Some Sa →
  amt ≤ balance Sa →
  spk ≠ rid →
  let r := run (TransferMoneyView_post (Authenticated spk) (Some (name, amt))) w in
  r.1 = Ok (Redirect "transfer")
  ∧ transfer_done w r.2 spk rid amt Sa Ra
  ∧ (∀ k, k ≠ spk → k ≠ rid → accounts r.2 !! k = accounts w !! k)
  ∧ size (transactions r.2) = (size (transactions w) + 2)%nat.
Proof.
  intros Hname HR HS Hle Hne r. subst r.
  unfold transfer_done, TransferMoneyView_post.
  rewrite run_bind, run_try_except, run_bind, run_User_objects_get, Hname.
  cbv beta iota. rewrite run_bind, run_user_account, HR. run_simpl.
  unfold request_user_account. rewrite run_user_account, HS. cbv beta iota.
  rewrite bool_decide_eq_false_2 by lia.
  unfold account_save, send_transaction_email. cbv zeta. run_simpl. world_simpl.
  set (m := transactions w).
  set (t1 := mkTransaction spk amt _ TRANSFER _ false).
  set (t2 := mkTransaction rid amt _ RECEIVE_MONEY _ false).
  assert (next_pk (<[next_pk m := t1]> m) ≠ next_pk m) as Hk.
  { intros Heq. pose proof (next_pk_fresh (<[next_pk m := t1]> m)) as Hf.
    rewrite Heq, lookup_insert_eq in Hf. discriminate. }
  assert (m !! next_pk (<[next_pk m := t1]> m) = None) as Hk2.
  { pose proof (next_pk_fresh (<[next_pk m := t1]> m)) as Hf.
    by rewrite lookup_insert_ne in Hf. }
  split; [done|]. split; [|split].
  - split; [|split].
    + rewrite lookup_insert_ne by congruence. by rewrite lookup_insert_eq.
    + by rewrite lookup_insert_eq.
    + exists (next_pk m), (next_pk (<[next_pk m := t1]> m)), (clock w), (clock w + 1).
      split; [apply next_pk_fresh|]. split; [exact Hk2|]. split; [congruence|done].
  - intros k Hks Hkr. by rewrite !lookup_insert_ne by congruence.
  - rewrite map_size_insert_None by (by rewrite lookup_insert_ne).
    rewrite map_size_insert_None by apply next_pk_fresh. lia.
Qed.

(** X18.  A transfer to the sender's own username: the recipient instance
    was loaded before the debit, and saving it last leaves the row above its
    starting balance by the amount. *)
Lemma transfer_to_self (w : World) (spk amt : Z) (name : string) (Sa : Account) :
  users w !! name = Some spk →
  accounts w !! spk = Some Sa →
  amt ≤ balance Sa →
  balance <$> accounts
    (run (TransferMoneyView_post (Authenticated spk) (Some (name, amt))) w).2 !! spk
  = Some (balance Sa + amt).
Proof.
  intros Hname HS Hle. unfold TransferMoneyView_post.
  rewrite run_bind, run_try_except, run_bind, run_User_objects_get, Hname.
  cbv beta iota. rewrite run_bind, run_user_account, HS. run_simpl.
  unfold request_user_account. rewrite run_user_account, HS. cbv beta iota.
  rewrite bool_decide_eq_false_2 by lia.
  unfold account_save, send_transaction_email. cbv zeta. run_simpl.
  by rewrite lookup_insert_eq.
Qed.

(** C1.  Evaluation at a transfer of 30.00 from alice to the username
    "alice": the recipient instance is a second snapshot of the same row,
    taken before the debit, so writing it back undoes the debit and the row
    ends 30.00 above where it started; the two balances C1 asks for do
    not result. *)
Theorem transfer_to_self_mints :
  let r := run (TransferMoneyView_post (Authenticated 1) (Some ("alice", 3000))) bank0 in
  r.1 = Ok (Redirect "transfer")
  ∧ balance <$> accounts bank0 !! 1 = Some 10000
  ∧ balance <$> accounts r.2 !! 1 = Some 13000
  ∧ transactions r.2
    = {[ 0 := mkTransaction 1 3000 7000 TRANSFER 0 false;
         1 := mkTransaction 1 3000 13000 RECEIVE_MONEY 1 false ]}
  ∧ ¬ transfer_done bank0 r.2 1 1 3000 (mkAccount 11 10000) (mkAccount 11 10000).
Proof.
  cbv zeta. repeat split; try (vm_compute; reflexivity).
  intros [Hdebit _]. vm_compute in Hdebit. discriminate Hdebit.
Qed.

(** C2.  Evaluation at a withdrawal of 200.00 from alice's 100.00: the
    view debits the account to -100.00 and records a withdrawal. *)
Theorem withdraw_over_balance_debits :
  let r := run (WithdrawMoneyView_form_valid (Authenticated 1) 20000) bank0 in
  r.1 = Ok (Redirect "transaction_report")
  ∧ balance <$> accounts bank0 !! 1 = Some 10000
  ∧ balance <$> accounts r.2 !! 1 = Some (-10000)
  ∧ transactions r.2 = {[ 0 := mkTransaction 1 20000 (-10000) WITHDRAWAL 0 false ]}
  ∧ flashed r.2 = [msg_withdrawn 20000].
Proof. cbv zeta. repeat split; vm_compute; reflexivity. Qed.

(** ** Loan requests (claims C4 and C5) *)

Lemma type_code_loan (ty : transaction_type) : type_code ty = 3 ↔ ty = LOAN.
Proof. destruct ty; simpl; split; (discriminate || reflexivity). Qed.

(** The count of lines 91-92 is the number of approved loan rows of the
    account. *)
Lemma current_loan_count_approved (pk : Z) (w : World) :
  current_loan_count pk w = size (approved_loan_rows pk (transactions w)).
Proof.
  unfold current_loan_count, approved_loans, approved_loan_rows. f_equal.
  apply map_filter_ext. intros k t _. simpl.
  rewrite type_code_loan. reflexivity.
Qed.

(** C4 as stated fails: with three loan rows of alice, none approved, the
    check counts none, and a fourth request of alice goes through. *)
Lemma loan_count_ignores_unapproved :
  size (loan_type_rows 1 (transactions bank_pending)) = 3%nat
  ∧ current_loan_count 1 bank_pending = 0%nat
  ∧ current_loan_count 1 bank_pending
    ≠ size (loan_type_rows 1 (transactions bank_pending))
  ∧ (run (LoanRequestView_form_valid (Authenticated 1) 5000) bank_pending).1
    = Ok (Redirect "transaction_report").
Proof. repeat split; vm_compute; (reflexivity || discriminate). Qed.

(** X19.  At the limit the view stops on line 94 with the [NameError];
    nothing is written, flashed or mailed. *)
Lemma loan_request_at_limit (w : World) (pk amt : Z) (A : Account) :
  accounts w !! pk = Some A →
  (3 ≤ current_loan_count pk w)%nat →
  run (LoanRequestView_form_valid (Authenticated pk) amt) w
  = (Raise (NameError "HttpResponse"), w).
Proof.
  intros HA Hc. unfold LoanRequestView_form_valid, request_user_account.
  rewrite run_bind, run_user_account, HA. run_simpl.
  rewrite bool_decide_eq_true_2 by exact Hc. reflexivity.
Qed.

(** Below the limit one row of type LOAN is created, not approved; the
    account rows are as before. *)
Lemma loan_request_below_limit (w : World) (pk amt : Z) (A : Account) :
  accounts w !! pk = Some A →
  (current_loan_count pk w < 3)%nat →
  let r := run (LoanRequestView_form_valid (Authenticated pk) amt) w in
  r.1 = Ok (Redirect "transaction_report")
  ∧ accounts r.2 = accounts w
  ∧ transactions w !! next_pk (transactions w) = None
  ∧ transactions r.2
    = <[next_pk (transactions w) := mkTransaction pk amt (balance A) LOAN (clock w) false]>
        (transactions w).
Proof.
  intros HA Hc. unfold LoanRequestView_form_valid, request_user_account.
  rewrite run_bind, run_user_account, HA. run_simpl.
  rewrite bool_decide_eq_false_2 by lia.
  unfold messages_add, send_transaction_email, CreateView_form_valid.
  run_simpl. rewrite run_form_save. run_simpl. world_simpl.
  repeat split. apply next_pk_fresh.
Qed.

(** C4, as amended.  The loan-limit check of RequestLoan counts, for the
    requesting account, the rows of the loan type whose approval flag is
    set: the request of a user with an account stops at the limit branch of
    line 94 exactly when that account has three or more such rows, and
    otherwise goes through and creates its record, however many loan rows
    without the flag, or of other accounts, there are. *)
Theorem loan_limit_counts_approved_loans (w : World) (pk amt : Z) (A : Account) :
  accounts w !! pk = Some A →
  ((3 ≤ size (approved_loan_rows pk (transactions w)))%nat →
     run (LoanRequestView_form_valid (Authenticated pk) amt) w
     = (Raise (NameError "HttpResponse"), w))
  ∧ ((size (approved_loan_rows pk (transactions w)) < 3)%nat →
     (run (LoanRequestView_form_valid (Authenticated pk) amt) w).1
     = Ok (Redirect "transaction_report")
     ∧ transactions (run (LoanRequestView_form_valid (Authenticated pk) amt) w).2
       = <[next_pk (transactions w)
           := mkTransaction pk amt (balance A) LOAN (clock w) false]> (transactions w)).
Proof.
  intros HA. rewrite <- current_loan_count_approved. split.
  - intros Hc. unfold LoanRequestView_form_valid, request_user_account.
    rewrite run_bind, run_user_account, HA. run_simpl.
    rewrite bool_decide_eq_true_2 by exact Hc. reflexivity.
  - intros Hc.
    destruct (loan_request_below_limit w pk amt A HA Hc) as (Hok & _ & _ & Htx).
    split; [exact Hok | exact Htx].
Qed.

(** C5.  Evaluation at a loan request of alice, who has three approved
    loans: the request ends in the [NameError] raised by the unimported
    name, not in a response stating the limit; no row is created. *)
Theorem loan_request_at_limit_raises :
  current_loan_count 1 bank_approved = 3%nat
  ∧ run (LoanRequestView_form_valid (Authenticated 1) 5000) bank_approved
    = (Raise (NameError "HttpResponse"), bank_approved).
Proof. split; vm_compute; reflexivity. Qed.

(** ** The report (claims C6 and C9) *)

Section ReportProperties.

Variable strptime : string → option Z.

Lemma truthy_Some (s : string) : s ≠ "" → truthy (Some s) = true.
Proof.
  intros Hs. simpl. destruct (String.eqb s "") eqn:E; [|done].
  apply String.eqb_eq in E. contradiction.
Qed.

(** C9.  A report request of a user with an account that supplies both a
    start and an end date, each parsed by [strptime], raises the
    [AttributeError] of [.dend]; no queryset and no balance is returned,
    and nothing was filtered or summed. *)
Theorem ranged_report_raises (w : World) (pk : Z) (A : Account)
    (s e : string) (ds de : Z) :
  accounts w !! pk = Some A →
  s ≠ "" → e ≠ "" →
  strptime s = Some ds →
  strptime e = Some de →
  run (TransactionReportView_get_queryset strptime (Authenticated pk) (Some s) (Some e)) w
  = (Raise (AttributeError "dend"), w).
Proof.
  intros HA Hs He Hds Hde.
  unfold TransactionReportView_get_queryset, request_user_account.
  rewrite run_bind, run_user_account, HA. run_simpl.
  rewrite !truthy_Some by assumption.
  change (default "" (Some s)) with s. change (default "" (Some e)) with e.
  cbn [andb].
  unfold datetime_strptime, datetime_dend. rewrite Hds. run_simpl.
  rewrite Hde. run_simpl. reflexivity.
Qed.

(** With both dates supplied the method returns for no user, no dates and
    no parser: every path ends in an exception. *)
Lemma ranged_report_never_returns (w : World) (user : request_user)
    (start_date_str end_date_str : option string) :
  truthy start_date_str && truthy end_date_str = true →
  ∃ ex, run (TransactionReportView_get_queryset strptime user
               start_date_str end_date_str) w
        = (Raise ex, w).
Proof.
  intros Ht. unfold TransactionReportView_get_queryset.
  rewrite run_bind.
  destruct user as [|uid]; [by eexists|].
  unfold request_user_account. rewrite run_user_account.
  destruct (accounts w !! uid); [|by eexists].
  run_simpl. rewrite Ht. unfold datetime_strptime, datetime_dend.
  destruct (strptime (default "" start_date_str)); run_simpl; [|by eexists].
  destruct (strptime (default "" end_date_str)); run_simpl; by eexists.
Qed.

(** Without both dates the balance left in [self.balance] is the balance
    of the account of the user, and the queryset is the rows of that
    account. *)
Lemma report_without_range (w : World) (pk : Z) (A : Account)
    (start_date_str end_date_str : option string) :
  accounts w !! pk = Some A →
  truthy start_date_str && truthy end_date_str = false →
  run (TransactionReportView_get_queryset strptime (Authenticated pk)
         start_date_str end_date_str) w
  = (Ok (filter (λ kt, account kt.2 = pk) (transactions w), Some (balance A)), w).
Proof.
  intros HA Ht. unfold TransactionReportView_get_queryset, request_user_account.
  rewrite run_bind, run_user_account, HA. run_simpl. rewrite Ht.
  rewrite run_bind, run_user_account, HA. reflexivity.
Qed.

End ReportProperties.

(** C6.  Evaluation at a report of alice over January 2024: the sum over the
    rows in the range is never computed, the method raises on line 114. *)
Theorem ranged_report_example :
  amount_sum (in_date_range 19723 19753 (transactions bank_january)) = Some 6500
  ∧ run (TransactionReportView_get_queryset strptime_sample (Authenticated 1)
           (Some "2024-01-01") (Some "2024-01-31")) bank_january
    = (Raise (AttributeError "dend"), bank_january).
Proof. split; vm_compute; reflexivity. Qed.

(** ** Existing records (claim C8) *)

Lemma insert_next_pk_subseteq (m m0 : gmap Z Transaction) (t : Transaction) :
  m ⊆ m0 → m ⊆ <[next_pk m0 := t]> m0.
Proof.
  intros Hm. etrans; [exact Hm|].
  apply insert_subseteq, next_pk_fresh.
Qed.

Create HintDb rows.

#[local] Hint Resolve insert_next_pk_subseteq : rows.
#[local] Hint Extern 0 (?m ⊆ ?m) => reflexivity : rows.

(** Case analysis on whatever the view under execution inspects next: the
    innermost scrutinee first, so that the run can go on. *)
Ltac run_cases :=
  repeat first
    [ progress run_step
    | rewrite run_user_account
    | rewrite run_User_objects_get
    | rewrite run_try_except
    | rewrite run_form_save
    | match goal with
      | |- context [match ?x with _ => _ end] =>
          lazymatch x with
          | context [match _ with _ => _ end] => fail
          | _ => destruct x eqn:?
          end
      end ].

Ltac rows_solve := world_simpl; auto with rows.

Section Frame.

Variable strptime : string → option Z.

(** The create views only add a row. *)
Lemma deposit_keeps_rows (user : request_user) (amt : Z) (w : World) :
  transactions w ⊆ transactions (run (DepositMoneyView_form_valid user amt) w).2.
Proof.
  unfold DepositMoneyView_form_valid, request_user_account, CreateView_form_valid,
    account_save_balance, messages_add, send_transaction_email.
  destruct user as [|uid]; run_cases; rows_solve.
Qed.

Lemma withdraw_keeps_rows (user : request_user) (amt : Z) (w : World) :
  transactions w ⊆ transactions (run (WithdrawMoneyView_form_valid user amt) w).2.
Proof.
  unfold WithdrawMoneyView_form_valid, request_user_account, CreateView_form_valid,
    account_save_balance, messages_add, send_transaction_email.
  destruct user as [|uid]; run_cases; rows_solve.
Qed.

Lemma loan_request_keeps_rows (user : request_user) (amt : Z) (w : World) :
  transactions w ⊆ transactions (run (LoanRequestView_form_valid user amt) w).2.
Proof.
  unfold LoanRequestView_form_valid, request_user_account, CreateView_form_valid,
    messages_add, send_transaction_email.
  destruct user as [|uid]; run_cases; rows_solve.
Qed.

(** The list views write nothing. *)
Lemma report_keeps_world (user : request_user) (s e : option string) (w : World) :
  (run (TransactionReportView_get_queryset strptime user s e) w).2 = w.
Proof.
  unfold TransactionReportView_get_queryset, request_user_account,
    datetime_strptime, datetime_dend.
  destruct user as [|uid]; run_cases; reflexivity.
Qed.

Lemma loan_list_keeps_world (user : request_user) (w : World) :
  (run (LoanListView_get_queryset user) w).2 = w.
Proof.
  unfold LoanListView_get_queryset, request_user_account.
  destruct user as [|uid]; run_cases; reflexivity.
Qed.

(** A transfer only adds rows. *)
Lemma transfer_keeps_rows (user : request_user) (form : option (string * Z)) (w : World) :
  transactions w ⊆ transactions (run (TransferMoneyView_post user form) w).2.
Proof.
  unfold TransferMoneyView_post, request_user_account, account_save,
    messages_add, send_transaction_email.
  destruct form as [[name amt]|]; [|reflexivity].
  destruct user as [|uid]; run_cases; rows_solve.
Qed.

End Frame.

(** Every operation but PayLoan keeps every row as it is. *)
Lemma perform_keeps_rows (strptime : string → option Z) (user : request_user)
    (op : operation) (w : World) :
  (∀ loan_id, op ≠ op_pay_loan loan_id) →
  transactions w ⊆ transactions (run (perform strptime user op) w).2.
Proof.
  intros Hop.
  destruct op as [amt|amt|amt|s e|loan_id| | |form]; unfold perform.
  - destruct user; [reflexivity|]. unfold LoginRequiredMixin.
    exact (deposit_keeps_rows _ _ _).
  - destruct user; [reflexivity|]. unfold LoginRequiredMixin.
    exact (withdraw_keeps_rows _ _ _).
  - destruct user; [reflexivity|]. unfold LoginRequiredMixin.
    exact (loan_request_keeps_rows _ _ _).
  - destruct user; [reflexivity|].
    unfold TransactionReportView, LoginRequiredMixin. rewrite run_bind.
    pose proof (report_keeps_world strptime (Authenticated uid) s e w) as Hw.
    destruct (run (TransactionReportView_get_queryset _ _ _ _) w) as [[q|ex] w'];
      simpl in Hw; subst w'; reflexivity.
  - by destruct (Hop loan_id).
  - destruct user; [reflexivity|].
    unfold LoginRequiredMixin. rewrite run_bind.
    pose proof (loan_list_keeps_world (Authenticated uid) w) as Hw.
    destruct (run (LoanListView_get_queryset _) w) as [[q|ex] w'];
      simpl in Hw; subst w'; reflexivity.
  - reflexivity.
  - exact (transfer_keeps_rows _ _ _).
Qed.



(** A paid loan can be paid again: the flag is still set, so the account is
    debited once more and the snapshot is overwritten once more. *)
Lemma pay_loan_twice :
  let w1 := (run (PayLoanView (Authenticated 1) 1) bank_approved).2 in
  let w2 := (run (PayLoanView (Authenticated 1) 1) w1).2 in
  balance <$> accounts w1 !! 1 = Some 7000
  ∧ transactions w1 !! 1 = Some (mkTransaction 1 3000 7000 LOAN_PAID 10 true)
  ∧ balance <$> accounts w2 !! 1 = Some 4000
  ∧ transactions w2 !! 1 = Some (mkTransaction 1 3000 4000 LOAN_PAID 10 true).
Proof. cbv zeta. repeat split; vm_compute; reflexivity. Qed.

(** * The theorems at concrete inputs *)

(** C3 at alice's first approved loan: 30.00 against a balance of 100.00. *)
Lemma pay_loan_by_cases_witness :
  run (PayLoanView_get (Authenticated 2) 1) bank_approved
  = (Ok (Redirect "loan_list"),
     loan_paid 1 (mkTransaction 1 3000 10000 LOAN 10 true) (mkAccount 11 10000)
               bank_approved).
Proof.
  apply (proj1 (pay_loan_by_cases bank_approved (Authenticated 2) 1
                  (mkTransaction 1 3000 10000 LOAN 10 true) (mkAccount 11 10000)
                  eq_refl eq_refl)).
  - reflexivity.
  - simpl. lia.
Defined.

(** C10 at the same loan, requested by bob and by alice: the runs agree,
    alice's account, which the record refers to, is debited, and bob's is
    not touched. *)
Lemma pay_loan_ignores_requester_witness :
  run (PayLoanView (Authenticated 2) 1) bank_approved
  = run (PayLoanView (Authenticated 1) 1) bank_approved
  ∧ accounts (run (PayLoanView (Authenticated 2) 1) bank_approved).2 !! 1
    = Some (mkAccount 11 7000)
  ∧ accounts (run (PayLoanView (Authenticated 2) 1) bank_approved).2 !! 2
    = accounts bank_approved !! 2.
Proof.
  destruct (pay_loan_ignores_requester bank_approved 2 1 1) as (Hsame & Hdebit & Hother).
  split; [exact Hsame|]. split.
  - apply (Hdebit (mkTransaction 1 3000 10000 LOAN 10 true) (mkAccount 11 10000));
      [reflexivity | reflexivity | reflexivity | simpl; lia].
  - apply (Hother (mkTransaction 1 3000 10000 LOAN 10 true) 2); [reflexivity|].
    simpl. lia.
Defined.

(** C7 at a transfer of 30.00 from bob, who holds nothing, to alice. *)
Lemma transfer_rejected_witness :
  run (TransferMoneyView_post (Authenticated 2) (Some ("alice", 3000))) bank0
  = (Ok (Redirect "transfer"), add_flash msg_insufficient bank0)
  ∧ accounts (run (TransferMoneyView_post (Authenticated 2) (Some ("alice", 3000))) bank0).2
    = accounts bank0
  ∧ transactions (run (TransferMoneyView_post (Authenticated 2) (Some ("alice", 3000))) bank0).2
    = transactions bank0.
Proof.
  destruct (transfer_rejected bank0 (Authenticated 2) "alice" 3000) as [Hmsg Hinert].
  split.
  - apply Hmsg.
    apply (reject_insufficient bank0 (Authenticated 2) "alice" 3000 1 2
             (mkAccount 11 10000) (mkAccount 22 0));
      [reflexivity | reflexivity | reflexivity | reflexivity | simpl; lia].
  - apply Hinert. right. exists 2, (mkAccount 22 0).
    split; [reflexivity|]. split; [reflexivity|]. simpl. lia.
Defined.

(** C9 at a report of alice over January 2024. *)
Lemma ranged_report_raises_witness :
  run (TransactionReportView_get_queryset strptime_sample (Authenticated 1)
         (Some "2024-01-01") (Some "2024-01-31")) bank_january
  = (Raise (AttributeError "dend"), bank_january).
Proof.
  apply (ranged_report_raises strptime_sample bank_january 1 (mkAccount 11 10000)
           "2024-01-01" "2024-01-31" 1704067200 1706659200);
    [reflexivity | discriminate | discriminate | reflexivity | reflexivity].
Defined.


(** C4 at alice in [bank_pending]: no approved loan, the request goes
    through. *)
Lemma loan_limit_counts_approved_loans_witness :
  (run (LoanRequestView_form_valid (Authenticated 1) 5000) bank_pending).1
  = Ok (Redirect "transaction_report").
Proof.
  apply (proj2 (loan_limit_counts_approved_loans bank_pending 1 5000
                  (mkAccount 11 10000) eq_refl)).
  vm_compute. lia.
Defined.

(** * Further properties of the views *)

(** ** Deposits and withdrawals *)

Lemma account_eta (A : Account) (b : Z) :
  b = balance A → mkAccount (account_no A) b = A.
Proof. intros ->. by destruct A. Qed.

Lemma alter_set_balance (m : gmap Z Account) (pk b : Z) (A : Account) :
  m !! pk = Some A →
  alter (set_balance b) pk m = <[pk := mkAccount (account_no A) b]> m.
Proof.
  intros HA. apply map_eq. intros k. rewrite lookup_alter, lookup_insert.
  destruct (decide (pk = k)) as [->|]; [|done]. by rewrite HA.
Qed.

Lemma deposit_form_valid_accounts (w : World) (pk amt : Z) (A : Account) :
  accounts w !! pk = Some A →
  accounts (run (DepositMoneyView_form_valid (Authenticated pk) amt) w).2
  = <[pk := mkAccount (account_no A) (balance A + amt)]> (accounts w).
Proof.
  intros HA. unfold DepositMoneyView_form_valid, request_user_account.
  rewrite run_bind, run_user_account, HA. cbv zeta beta iota.
  unfold account_save_balance, messages_add, send_transaction_email,
    CreateView_form_valid.
  run_simpl. rewrite run_form_save. run_simpl.
  by apply alter_set_balance.
Qed.

(** X1.  A deposit by a user whose account row is [A] writes the balance
    raised by the amount to that row and to no other, flashes the success
    message, sends one mail to the user, keeps every transaction row and
    redirects to the report. *)
Theorem deposit_credits (w : World) (pk amt : Z) (A : Account) :
  accounts w !! pk = Some A →
  (run (DepositMoneyView_form_valid (Authenticated pk) amt) w).1
  = Ok (Redirect "transaction_report")
  ∧ accounts (run (DepositMoneyView_form_valid (Authenticated pk) amt) w).2
    = <[pk := mkAccount (account_no A) (balance A + amt)]> (accounts w)
  ∧ flashed (run (DepositMoneyView_form_valid (Authenticated pk) amt) w).2
    = flashed w ++ [msg_deposited amt]
  ∧ outbox (run (DepositMoneyView_form_valid (Authenticated pk) amt) w).2
    = outbox w ++ [mkEmail pk amt "Deposit Message" "transactions/deposit_email.html"]
  ∧ transactions w
    ⊆ transactions (run (DepositMoneyView_form_valid (Authenticated pk) amt) w).2.
Proof.
  intros HA. unfold DepositMoneyView_form_valid, request_user_account.
  rewrite run_bind, run_user_account, HA. cbv zeta beta iota.
  unfold account_save_balance, messages_add, send_transaction_email,
    CreateView_form_valid.
  run_simpl. rewrite run_form_save. run_simpl.
  split; [done|]. split; [by apply alter_set_balance|].
  split; [done|]. split; [done|].
  apply insert_subseteq, next_pk_fresh.
Qed.

(** X2.  A deposit followed by a withdrawal of the same amount by the same
    user leaves the account table as it was. *)
Theorem deposit_then_withdraw_restores (w : World) (pk amt : Z) (A : Account) :
  accounts w !! pk = Some A →
  accounts
    (run (WithdrawMoneyView_form_valid (Authenticated pk) amt)
         (run (DepositMoneyView_form_valid (Authenticated pk) amt) w).2).2
  = accounts w.
Proof.
  intros HA.
  pose proof (deposit_form_valid_accounts w pk amt A HA) as Hacc.
  set (w1 := (run (DepositMoneyView_form_valid (Authenticated pk) amt) w).2) in *.
  assert (accounts w1 !! pk = Some (mkAccount (account_no A) (balance A + amt))) as H1
    by (rewrite Hacc; apply lookup_insert_eq).
  destruct (withdraw_form_valid_run w1 pk amt _ H1) as (_ & Hacc2 & _).
  rewrite Hacc2, Hacc. cbn [account_no balance].
  rewrite insert_insert_eq. apply insert_id.
  rewrite HA. f_equal. symmetry. apply account_eta. lia.
Qed.

(** X3.  A loan request never writes to the account table: no money is
    paid out by it, whoever asks and whatever the amount. *)
Theorem loan_request_keeps_accounts (w : World) (user : request_user) (amt : Z) :
  accounts (run (LoanRequestView_form_valid user amt) w).2 = accounts w.
Proof.
  unfold LoanRequestView_form_valid, request_user_account, CreateView_form_valid,
    messages_add, send_transaction_email.
  destruct user as [|uid]; run_cases; reflexivity.
Qed.

(** X20.  A withdrawal by a user whose account row is [A] writes the
    balance lowered by the amount to that row and to no other, whatever the
    amount: above the balance it leaves the account overdrawn.  It flashes
    the success message and sends one mail to the user. *)
Theorem withdraw_debits_any_amount (w : World) (pk amt : Z) (A : Account) :
  accounts w !! pk = Some A →
  (run (WithdrawMoneyView_form_valid (Authenticated pk) amt) w).1
  = Ok (Redirect "transaction_report")
  ∧ accounts (run (WithdrawMoneyView_form_valid (Authenticated pk) amt) w).2
    = <[pk := mkAccount (account_no A) (balance A - amt)]> (accounts w)
  ∧ (balance A < amt →
     ¬ balances_nonneg (run (WithdrawMoneyView_form_valid (Authenticated pk) amt) w).2)
  ∧ flashed (run (WithdrawMoneyView_form_valid (Authenticated pk) amt) w).2
    = flashed w ++ [msg_withdrawn amt]
  ∧ outbox (run (WithdrawMoneyView_form_valid (Authenticated pk) amt) w).2
    = outbox w ++ [mkEmail pk amt "Withdrawl Message" "transactions/withdraw_email.html"].
Proof.
  intros HA. unfold balances_nonneg, WithdrawMoneyView_form_valid, request_user_account.
  rewrite run_bind, run_user_account, HA. cbv zeta beta iota.
  unfold account_save_balance, messages_add, send_transaction_email,
    CreateView_form_valid.
  run_simpl. rewrite run_form_save. run_simpl.
  rewrite (alter_set_balance _ _ _ _ HA).
  split; [done|]. split; [done|]. split; [|done].
  intros Hlt Hinv.
  pose proof (Hinv pk _ (lookup_insert_eq _ _ _)) as Hneg. simpl in Hneg. lia.
Qed.

(** ** Requests without a login, and the views that only read *)

(** X4.  No request of an anonymous user changes the users, the accounts
    or the transactions, whatever the operation: the views with the login
    mixin redirect, and the transfer view, which has none, stops before its
    first write. *)
Theorem anonymous_changes_nothing (strptime : string → option Z) (op : operation)
    (w : World) :
  users (run (perform strptime AnonymousUser op) w).2 = users w
  ∧ accounts (run (perform strptime AnonymousUser op) w).2 = accounts w
  ∧ transactions (run (perform strptime AnonymousUser op) w).2 = transactions w.
Proof.
  destruct op as [amt|amt|amt|s e|loan_id| | |[[name amt]|]]; try done.
  unfold perform, TransferMoneyView_post, request_user_account, messages_add.
  repeat split; run_cases; reflexivity.
Qed.

(** X5.  The report and the loan list only read: whatever the user and the
    dates, and whether they return or raise, the world after them is the
    world before. *)
Theorem list_views_read_only (strptime : string → option Z) (user : request_user)
    (start_date_str end_date_str : option string) (w : World) :
  (run (TransactionReportView strptime user start_date_str end_date_str) w).2 = w
  ∧ (run (perform strptime user op_loan_list) w).2 = w.
Proof.
  split.
  - destruct user as [|uid]; [reflexivity|].
    unfold TransactionReportView, LoginRequiredMixin. rewrite run_bind.
    pose proof (report_keeps_world strptime (Authenticated uid)
                  start_date_str end_date_str w) as Hw.
    destruct (run (TransactionReportView_get_queryset _ _ _ _) w) as [[q|ex] w'];
      simpl in Hw; subst w'; reflexivity.
  - destruct user as [|uid]; [reflexivity|].
    unfold perform, LoginRequiredMixin. rewrite run_bind.
    pose proof (loan_list_keeps_world (Authenticated uid) w) as Hw.
    destruct (run (LoanListView_get_queryset _) w) as [[q|ex] w'];
      simpl in Hw; subst w'; reflexivity.
Qed.

(** ** The report *)

(** X6.  Without both dates (one absent or the empty string) the report of
    a user with account row [A] returns exactly the rows whose account is
    the user's, no row of another account, and leaves the balance of [A]
    in [self.balance]. *)
Theorem report_lists_own_rows (strptime : string → option Z) (w : World) (pk : Z)
    (A : Account) (start_date_str end_date_str : option string) :
  accounts w !! pk = Some A →
  truthy start_date_str && truthy end_date_str = false →
  ∃ queryset,
    run (TransactionReportView_get_queryset strptime (Authenticated pk)
           start_date_str end_date_str) w
    = (Ok (queryset, Some (balance A)), w)
    ∧ ∀ k t, queryset !! k = Some t ↔ transactions w !! k = Some t ∧ account t = pk.
Proof.
  intros HA Ht. eexists. split.
  - by apply report_without_range.
  - intros k t. rewrite map_lookup_filter_Some. simpl. tauto.
Qed.

(** X7.  With both dates supplied the report of a user with an account
    raises: [ValueError] when the start date does not parse, [ValueError]
    when the start date parses and the end date does not, and the
    [AttributeError] of [.dend] when both parse.  Nothing is written. *)
Theorem ranged_report_exception (strptime : string → option Z) (w : World) (pk : Z)
    (A : Account) (s e : string) :
  accounts w !! pk = Some A →
  s ≠ "" → e ≠ "" →
  run (TransactionReportView_get_queryset strptime (Authenticated pk) (Some s) (Some e)) w
  = (Raise (match strptime s, strptime e with
            | Some _, Some _ => AttributeError "dend"
            | _, _ => ValueError
            end), w).
Proof.
  intros HA Hs He.
  unfold TransactionReportView_get_queryset, request_user_account.
  rewrite run_bind, run_user_account, HA. run_simpl.
  rewrite !truthy_Some by assumption.
  change (default "" (Some s)) with s. change (default "" (Some e)) with e.
  cbn [andb]. unfold datetime_strptime, datetime_dend.
  destruct (strptime s); run_simpl; [|reflexivity].
  destruct (strptime e); run_simpl; reflexivity.
Qed.

(** ** Paying loans *)

(** X8.  Unless the record exists and has its approval flag set, PayLoan
    changes nothing and flashes nothing: it raises [Http404] for an id
    without a record, and redirects to the loan list for a record that is
    not approved, however large the balance. *)
Theorem pay_loan_needs_approval (w : World) (user : request_user) (loan_id : Z) :
  loan_approve <$> transactions w !! loan_id ≠ Some true →
  run (PayLoanView_get user loan_id) w
  = (match transactions w !! loan_id with
     | Some _ => Ok (Redirect "loan_list")
     | None => Raise Http404
     end, w).
Proof.
  intros Hna. unfold PayLoanView_get.
  rewrite run_bind, run_get_object_or_404.
  destruct (transactions w !! loan_id) as [L|]; [|reflexivity].
  destruct (loan_approve L) eqn:Happ; [|reflexivity].
  contradict Hna. simpl. by rewrite Happ.
Qed.

(** X9.  Paying does not close a loan: the flag stays set, so a second
    PayLoan on the same id, when the balance still exceeds the amount,
    debits the account a second time; the account ends two amounts down and
    the record carries that balance as its snapshot. *)
Theorem pay_loan_again (w : World) (u1 u2 : request_user) (loan_id : Z)
    (L : Transaction) (A : Account) :
  transactions w !! loan_id = Some L →
  loan_approve L = true →
  accounts w !! account L = Some A →
  0 ≤ amount L →
  amount L < balance A - amount L →
  let w2 := (run (PayLoanView_get u2 loan_id)
               (run (PayLoanView_get u1 loan_id) w).2).2 in
  accounts w2 !! account L
  = Some (mkAccount (account_no A) (balance A - 2 * amount L))
  ∧ transactions w2 !! loan_id
    = Some (mkTransaction (account L) (amount L) (balance A - 2 * amount L)
                          LOAN_PAID (timestamp L) true).
Proof.
  intros HL Happ HA Hpos Hlt w2. subst w2.
  rewrite (run_pay_loan_paid w u1 loan_id L A HL Happ HA) by lia.
  cbn [snd].
  set (L1 := mkTransaction (account L) (amount L) (balance A - amount L)
                           LOAN_PAID (timestamp L) true).
  set (A1 := mkAccount (account_no A) (balance A - amount L)).
  rewrite (run_pay_loan_paid (loan_paid loan_id L A w) u2 loan_id L1 A1).
  - unfold loan_paid. world_simpl. cbn [account amount timestamp account_no balance L1 A1].
    rewrite !lookup_insert_eq.
    replace (balance A - amount L - amount L) with (balance A - 2 * amount L) by lia.
    done.
  - unfold loan_paid. world_simpl. apply lookup_insert_eq.
  - reflexivity.
  - unfold loan_paid. world_simpl. apply lookup_insert_eq.
  - simpl. lia.
Qed.

(** X10.  Paying an approved record of type LOAN takes it out of the count
    of the loan-limit check of its account, which goes down by one, and out
    of the loan list of that account. *)
Theorem pay_loan_frees_loan_slot (w : World) (user : request_user) (loan_id : Z)
    (L : Transaction) (A : Account) :
  transactions w !! loan_id = Some L →
  loan_approve L = true →
  transaction_type_of L = LOAN →
  accounts w !! account L = Some A →
  amount L < balance A →
  let w1 := (run (PayLoanView_get user loan_id) w).2 in
  S (current_loan_count (account L) w1) = current_loan_count (account L) w
  ∧ ∃ queryset,
      run (LoanListView_get_queryset (Authenticated (account L))) w1
      = (Ok queryset, w1)
      ∧ queryset !! loan_id = None.
Proof.
  intros HL Happ Hty HA Hlt w1. subst w1.
  rewrite (run_pay_loan_paid w user loan_id L A HL Happ HA Hlt). cbn [snd].
  split.
  - unfold current_loan_count, approved_loans, loan_paid. world_simpl.
    rewrite map_filter_insert_False by (simpl; intros (_ & Hc & _); discriminate Hc).
    rewrite map_filter_delete.
    match goal with |- context [delete loan_id ?m] => set (F := m) end.
    assert (F !! loan_id = Some L) as Hin.
    { apply map_lookup_filter_Some. split; [exact HL|]. simpl.
      by rewrite Hty, Happ. }
    rewrite map_size_delete_Some by eauto.
    assert (size F ≠ 0%nat) as Hnz.
    { intros Hz. apply map_size_empty_iff in Hz.
      rewrite Hz, lookup_empty in Hin. discriminate Hin. }
    lia.
  - eexists. split.
    + unfold LoanListView_get_queryset, request_user_account.
      rewrite run_bind, run_user_account.
      unfold loan_paid at 1. world_simpl. rewrite lookup_insert_eq.
      run_simpl. reflexivity.
    + apply map_lookup_filter_None. right. intros t Ht.
      unfold loan_paid in Ht. revert Ht. world_simpl.
      rewrite lookup_insert_eq. intros [= <-]. simpl.
      intros (_ & Hc). discriminate Hc.
Qed.

(** ** Transfers *)

(** The account table after a transfer that goes through.  The recipient
    row is written last, from the instance loaded before the debit. *)
Lemma transfer_accounts (w : World) (spk rid amt : Z) (name : string) (Sa Ra : Account) :
  users w !! name = Some rid →
  accounts w !! rid = Some Ra →
  accounts w !! spk = Some Sa →
  amt ≤ balance Sa →
  users (run (TransferMoneyView_post (Authenticated spk) (Some (name, amt))) w).2 = users w
  ∧ accounts (run (TransferMoneyView_post (Authenticated spk) (Some (name, amt))) w).2
    = <[rid := mkAccount (account_no Ra) (balance Ra + amt)]>
        (<[spk := mkAccount (account_no Sa) (balance Sa - amt)]> (accounts w)).
Proof.
  intros Hname HR HS Hle. unfold TransferMoneyView_post.
  rewrite run_bind, run_try_except, run_bind, run_User_objects_get, Hname.
  cbv beta iota. rewrite run_bind, run_user_account, HR. run_simpl.
  unfold request_user_account. rewrite run_user_account, HS. cbv beta iota.
  rewrite bool_decide_eq_false_2 by lia.
  unfold account_save, send_transaction_email. cbv zeta. run_simpl.
  done.
Qed.

(** X11.  A transfer between two different accounts followed by a transfer
    of the same amount back, when the first recipient was not overdrawn,
    leaves the account table as it was. *)
Theorem transfer_there_and_back (w : World) (spk rid amt : Z) (sname rname : string)
    (Sa Ra : Account) :
  users w !! sname = Some spk →
  users w !! rname = Some rid →
  accounts w !! spk = Some Sa →
  accounts w !! rid = Some Ra →
  spk ≠ rid →
  amt ≤ balance Sa →
  0 ≤ balance Ra →
  accounts
    (run (TransferMoneyView_post (Authenticated rid) (Some (sname, amt)))
         (run (TransferMoneyView_post (Authenticated spk) (Some (rname, amt))) w).2).2
  = accounts w.
Proof.
  intros Hs Hr HS HR Hne Hle Hnn.
  destruct (transfer_accounts w spk rid amt rname Sa Ra Hr HR HS Hle) as [Hu Hacc].
  set (w1 := (run (TransferMoneyView_post (Authenticated spk) (Some (rname, amt))) w).2)
    in *.
  assert (accounts w1 !! spk = Some (mkAccount (account_no Sa) (balance Sa - amt))) as HS1.
  { rewrite Hacc, lookup_insert_ne by congruence. apply lookup_insert_eq. }
  assert (accounts w1 !! rid = Some (mkAccount (account_no Ra) (balance Ra + amt))) as HR1.
  { rewrite Hacc. apply lookup_insert_eq. }
  assert (users w1 !! sname = Some spk) as Hs1 by (by rewrite Hu).
  destruct (transfer_accounts w1 rid spk amt sname _ _ Hs1 HS1 HR1) as [_ Hacc2];
    [simpl; lia|].
  rewrite Hacc2, Hacc. cbn [account_no balance].
  apply map_eq. intros k.
  destruct (decide (k = spk)) as [->|Hks].
  - rewrite lookup_insert_eq, HS. f_equal. apply account_eta. lia.
  - rewrite lookup_insert_ne by congruence.
    destruct (decide (k = rid)) as [->|Hkr].
    + rewrite lookup_insert_eq, HR. f_equal. apply account_eta. lia.
    + by rewrite !lookup_insert_ne by congruence.
Qed.

(** ** Invariants of the ledger over any sequence of requests *)

(** A property of worlds kept by every request is kept by every sequence. *)
Lemma perform_all_invariant (strptime : string → option Z) (P : World → Prop) :
  (∀ user op w, P w → P (run (perform strptime user op) w).2) →
  ∀ reqs w, P w → P (perform_all strptime reqs w).
Proof.
  intros Hstep reqs. induction reqs as [|[user op] reqs IH]; intros w Hw; [exact Hw|].
  simpl. apply IH, Hstep, Hw.
Qed.

Ltac unfold_views :=
  unfold perform, TransactionReportView, PayLoanView, LoginRequiredMixin,
    DepositMoneyView_form_valid, WithdrawMoneyView_form_valid,
    LoanRequestView_form_valid, TransactionReportView_get_queryset,
    PayLoanView_get, LoanListView_get_queryset, TransferMoneyView_get,
    TransferMoneyView_post, CreateView_form_valid, request_user_account,
    get_object_or_404, transaction_account, transaction_save,
    account_save, account_save_balance, messages_add, send_transaction_email,
    datetime_strptime, datetime_dend.

Ltac dom_solve :=
  world_simpl;
  repeat first
    [ rewrite dom_alter_L
    | rewrite dom_insert_lookup_L
        by (rewrite ?lookup_insert_is_Some'; eauto) ];
  reflexivity.

Lemma perform_keeps_account_set (strptime : string → option Z) (user : request_user)
    (op : operation) (w : World) :
  users (run (perform strptime user op) w).2 = users w
  ∧ dom (accounts (run (perform strptime user op) w).2) = dom (accounts w).
Proof.
  destruct op as [amt|amt|amt|s e|loan_id| | |[[name amt]|]];
    destruct user as [|uid]; unfold_views;
    (split; [run_cases; reflexivity | run_cases; dom_solve]).
Qed.

(** X12.  No sequence of requests opens or closes an account or changes the
    users: the keys of the account table and the user table are what they
    were. *)
Theorem account_set_is_fixed (strptime : string → option Z)
    (reqs : list (request_user * operation)) (w : World) :
  users (perform_all strptime reqs w) = users w
  ∧ dom (accounts (perform_all strptime reqs w)) = dom (accounts w).
Proof.
  apply (perform_all_invariant strptime
           (λ w', users w' = users w ∧ dom (accounts w') = dom (accounts w)));
    [|done].
  intros user op w' [Hu Hd].
  destruct (perform_keeps_account_set strptime user op w') as [Hu' Hd'].
  split; congruence.
Qed.

(** Facts for [lia]: the balances the invariant speaks of, and the
    comparisons the view has made. *)
Ltac balance_facts Hinv :=
  repeat match goal with
         | H : accounts _ !! _ = Some ?a |- _ =>
             lazymatch goal with
             | _ : 0 ≤ balance a |- _ => fail
             | _ => pose proof (Hinv _ _ H : 0 ≤ balance a)
             end
         | H : bool_decide _ = true |- _ => apply bool_decide_eq_true_1 in H
         | H : bool_decide _ = false |- _ => apply bool_decide_eq_false_1 in H
         end.

Ltac nonneg_solve Hinv :=
  world_simpl;
  repeat match goal with
         | H : accounts _ !! _ = Some _ |- context [alter (set_balance _) _ _] =>
             rewrite (alter_set_balance _ _ _ _ H)
         end;
  balance_facts Hinv;
  repeat (apply map_Forall_insert_2; [cbn [balance set_balance]; lia|]);
  exact Hinv.

Lemma perform_keeps_balances_nonneg (strptime : string → option Z) (user : request_user)
    (op : operation) (w : World) :
  overdraft_free op →
  balances_nonneg w →
  balances_nonneg (run (perform strptime user op) w).2.
Proof.
  unfold balances_nonneg. intros Hop Hinv.
  destruct op as [amt|amt|amt|s e|loan_id| | |[[name amt]|]];
    simpl in Hop; try contradiction;
    destruct user as [|uid]; unfold_views; run_cases; nonneg_solve Hinv.
Qed.

(** X13.  Over any sequence of requests that has no withdrawal in it and no
    negative deposit or transfer amount, no account is ever overdrawn:
    transfers and loan payments compare the amount with the balance before
    they debit. *)
Theorem no_overdraft_without_withdrawal (strptime : string → option Z)
    (reqs : list (request_user * operation)) (w : World) :
  Forall (λ req, overdraft_free req.2) reqs →
  balances_nonneg w →
  balances_nonneg (perform_all strptime reqs w).
Proof.
  intros Hreqs. revert w.
  induction Hreqs as [|[user op] reqs Hop _ IH]; intros w Hw; [exact Hw|].
  simpl. apply IH. by apply perform_keeps_balances_nonneg.
Qed.

Lemma record_evolves_refl (t : Transaction) : record_evolves t t.
Proof. unfold record_evolves. auto 10. Qed.

Lemma record_evolves_trans (t1 t2 t3 : Transaction) :
  record_evolves t1 t2 → record_evolves t2 t3 → record_evolves t1 t3.
Proof.
  unfold record_evolves.
  intros (Ha & Hm & Hs & Hf & Hty) (Ha' & Hm' & Hs' & Hf' & Hty').
  repeat split; try congruence.
  destruct Hty' as [Hty'|Hty']; [|by right].
  destruct Hty as [Hty|Hty]; [left|right]; congruence.
Qed.

Lemma perform_record_step (strptime : string → option Z) (user : request_user)
    (op : operation) (w : World) (k : Z) (t : Transaction) :
  transactions w !! k = Some t →
  ∃ t', transactions (run (perform strptime user op) w).2 !! k = Some t'
        ∧ record_evolves t t'.
Proof.
  intros Hk.
  assert ((∃ loan_id, op = op_pay_loan loan_id) ∨ (∀ loan_id, op ≠ op_pay_loan loan_id))
    as [[loan_id ->]|Hop]
    by (destruct op; first [left; by eexists | right; intros ? ?; discriminate]).
  - unfold perform, PayLoanView.
    destruct user as [|uid]; [exists t; split; [done|apply record_evolves_refl]|].
    unfold LoginRequiredMixin.
    destruct (pay_loan_cases w (Authenticated uid) loan_id)
      as [[Htx _]|(L & A & HL & Happ & _ & _ & Hrun)].
    + rewrite Htx. exists t. split; [done|apply record_evolves_refl].
    + rewrite Hrun. unfold loan_paid. world_simpl.
      destruct (decide (loan_id = k)) as [->|Hne].
      * rewrite lookup_insert_eq. eexists; split; [reflexivity|].
        assert (L = t) as -> by congruence.
        unfold record_evolves; simpl. auto 10.
      * rewrite lookup_insert_ne by exact Hne.
        exists t. split; [done|apply record_evolves_refl].
  - exists t. split; [|apply record_evolves_refl].
    eapply lookup_weaken; [exact Hk|].
    apply perform_keeps_rows. exact Hop.
Qed.

(** X14.  No sequence of requests deletes a transaction record or changes
    its account, amount, timestamp or approval flag; the type of a record
    is what it was or LOAN_PAID, so a record of type LOAN_PAID keeps that
    type for good. *)
Theorem record_history (strptime : string → option Z)
    (reqs : list (request_user * operation)) (w : World) (k : Z) (t : Transaction) :
  transactions w !! k = Some t →
  ∃ t', transactions (perform_all strptime reqs w) !! k = Some t'
        ∧ record_evolves t t'
        ∧ (transaction_type_of t = LOAN_PAID → transaction_type_of t' = LOAN_PAID).
Proof.
  revert w t. induction reqs as [|[user op] reqs IH]; intros w t Hk.
  - exists t. split; [done|]. split; [apply record_evolves_refl|done].
  - destruct (perform_record_step strptime user op w k t Hk) as (t1 & Hk1 & H1).
    destruct (IH _ t1 Hk1) as (t' & Hk' & H' & _).
    exists t'. split; [exact Hk'|].
    pose proof (record_evolves_trans _ _ _ H1 H') as Hev.
    split; [exact Hev|].
    intros Hpaid. destruct Hev as (_ & _ & _ & _ & [Hty|Hty]); congruence.
Qed.

(** ** More on transfers *)

(** X15.  A transfer to a user who exists but has no account row is not
    caught by the handler for unknown users: the view raises
    [RelatedObjectDoesNotExist] and nothing is written or flashed, whoever
    sends and whatever the amount. *)
Theorem transfer_recipient_without_account (w : World) (user : request_user)
    (name : string) (amt rid : Z) :
  users w !! name = Some rid →
  accounts w !! rid = None →
  run (TransferMoneyView_post user (Some (name, amt))) w
  = (Raise RelatedObjectDoesNotExist, w).
Proof.
  intros Hname HR. unfold TransferMoneyView_post.
  rewrite run_bind, run_try_except, run_bind, run_User_objects_get, Hname.
  cbv beta iota. rewrite run_bind, run_user_account, HR. reflexivity.
Qed.

(** X16.  A transfer that goes through mails the sender and then the
    recipient, one mail each, and flashes no message. *)
Theorem transfer_notifies_both (w : World) (spk rid amt : Z) (name : string)
    (Sa Ra : Account) :
  users w !! name = Some rid →
  accounts w !! rid = Some Ra →
  accounts w !! spk = Some Sa →
  amt ≤ balance Sa →
  outbox (run (TransferMoneyView_post (Authenticated spk) (Some (name, amt))) w).2
  = outbox w ++ [mkEmail spk amt "Send Money" "transactions/send_money.html";
                 mkEmail rid amt "Recived Money" "transactions/receive_money.html"]
  ∧ flashed (run (TransferMoneyView_post (Authenticated spk) (Some (name, amt))) w).2
    = flashed w.
Proof.
  intros Hname HR HS Hle. unfold TransferMoneyView_post.
  rewrite run_bind, run_try_except, run_bind, run_User_objects_get, Hname.
  cbv beta iota. rewrite run_bind, run_user_account, HR. run_simpl.
  unfold request_user_account. rewrite run_user_account, HS. cbv beta iota.
  rewrite bool_decide_eq_false_2 by lia.
  unfold account_save, send_transaction_email. cbv zeta. run_simpl.
  split; [|done]. by rewrite <- app_assoc.
Qed.

(** * The further properties at concrete inputs *)

(** X1 at a deposit of 25.00 by alice. *)
Lemma deposit_credits_witness :
  accounts (run (DepositMoneyView_form_valid (Authenticated 1) 2500) bank0).2 !! 1
  = Some (mkAccount 11 12500).
Proof.
  destruct (deposit_credits bank0 1 2500 (mkAccount 11 10000) eq_refl)
    as (_ & Hacc & _).
  rewrite Hacc. reflexivity.
Defined.

(** X2 at a deposit and a withdrawal of 25.00 by alice. *)
Lemma deposit_then_withdraw_restores_witness :
  accounts
    (run (WithdrawMoneyView_form_valid (Authenticated 1) 2500)
         (run (DepositMoneyView_form_valid (Authenticated 1) 2500) bank0).2).2
  = accounts bank0.
Proof.
  apply (deposit_then_withdraw_restores bank0 1 2500 (mkAccount 11 10000)).
  reflexivity.
Defined.

(** X6 at alice's report over [bank_january], no dates given. *)
Lemma report_lists_own_rows_witness :
  ∃ queryset,
    run (TransactionReportView_get_queryset strptime_sample (Authenticated 1)
           None None) bank_january
    = (Ok (queryset, Some (balance (mkAccount 11 10000))), bank_january)
    ∧ ∀ k t, queryset !! k = Some t
             ↔ transactions bank_january !! k = Some t ∧ account t = 1.
Proof.
  apply (report_lists_own_rows strptime_sample bank_january 1 (mkAccount 11 10000)
           None None); reflexivity.
Defined.

(** X7 at a report whose end date does not parse. *)
Lemma ranged_report_exception_witness :
  run (TransactionReportView_get_queryset strptime_sample (Authenticated 1)
         (Some "2024-01-01") (Some "tomorrow")) bank_january
  = (Raise ValueError, bank_january).
Proof.
  apply (ranged_report_exception strptime_sample bank_january 1 (mkAccount 11 10000)
           "2024-01-01" "tomorrow"); [reflexivity | discriminate | discriminate].
Defined.

(** X8 at alice's first loan in [bank_pending], which is not approved. *)
Lemma pay_loan_needs_approval_witness :
  run (PayLoanView_get (Authenticated 1) 1) bank_pending
  = (Ok (Redirect "loan_list"), bank_pending).
Proof.
  apply (pay_loan_needs_approval bank_pending (Authenticated 1) 1).
  discriminate.
Defined.

(** X9 at alice's first approved loan, paid by alice and then by bob. *)
Lemma pay_loan_again_witness :
  accounts (run (PayLoanView_get (Authenticated 2) 1)
              (run (PayLoanView_get (Authenticated 1) 1) bank_approved).2).2 !! 1
  = Some (mkAccount 11 4000).
Proof.
  apply (pay_loan_again bank_approved (Authenticated 1) (Authenticated 2) 1
           (mkTransaction 1 3000 10000 LOAN 10 true) (mkAccount 11 10000));
    [reflexivity | reflexivity | reflexivity | simpl; lia | simpl; lia].
Defined.

(** X10 at the same loan: three approved loans before, two after. *)
Lemma pay_loan_frees_loan_slot_witness :
  S (current_loan_count 1 (run (PayLoanView_get (Authenticated 1) 1) bank_approved).2)
  = current_loan_count 1 bank_approved.
Proof.
  apply (pay_loan_frees_loan_slot bank_approved (Authenticated 1) 1
           (mkTransaction 1 3000 10000 LOAN 10 true) (mkAccount 11 10000));
    [reflexivity | reflexivity | reflexivity | reflexivity | simpl; lia].
Defined.

(** X11 at 30.00 from alice to bob and back. *)
Lemma transfer_there_and_back_witness :
  accounts
    (run (TransferMoneyView_post (Authenticated 2) (Some ("alice", 3000)))
         (run (TransferMoneyView_post (Authenticated 1) (Some ("bob", 3000))) bank0).2).2
  = accounts bank0.
Proof.
  apply (transfer_there_and_back bank0 1 2 3000 "alice" "bob"
           (mkAccount 11 10000) (mkAccount 22 0));
    [reflexivity | reflexivity | reflexivity | reflexivity | lia | simpl; lia | simpl; lia].
Defined.

(** X13 at a deposit, a transfer and a loan payment over [bank_approved]. *)
Lemma no_overdraft_without_withdrawal_witness :
  balances_nonneg
    (perform_all strptime_sample
       [(Authenticated 1, op_deposit 2500);
        (Authenticated 1, op_transfer_post (Some ("bob", 9000)));
        (Authenticated 2, op_pay_loan 1)]
       bank_approved).
Proof.
  apply (no_overdraft_without_withdrawal strptime_sample).
  - repeat constructor; simpl; lia.
  - unfold balances_nonneg. apply map_Forall_to_list.
    vm_compute. repeat constructor; discriminate.
Defined.

(** X14 at alice's first approved loan over a payment and a later deposit. *)
Lemma record_history_witness :
  ∃ t', transactions
          (perform_all strptime_sample
             [(Authenticated 1, op_pay_loan 1); (Authenticated 1, op_deposit 2500)]
             bank_approved) !! 1 = Some t'
        ∧ record_evolves (mkTransaction 1 3000 10000 LOAN 10 true) t'
        ∧ (transaction_type_of (mkTransaction 1 3000 10000 LOAN 10 true) = LOAN_PAID
           → transaction_type_of t' = LOAN_PAID).
Proof.
  apply (record_history strptime_sample
           [(Authenticated 1, op_pay_loan 1); (Authenticated 1, op_deposit 2500)]
           bank_approved 1 (mkTransaction 1 3000 10000 LOAN 10 true)).
  reflexivity.
Defined.

(** X15 at a transfer from alice to carol. *)
Lemma transfer_recipient_without_account_witness :
  run (TransferMoneyView_post (Authenticated 1) (Some ("carol", 3000))) bank_carol
  = (Raise RelatedObjectDoesNotExist, bank_carol).
Proof.
  apply (transfer_recipient_without_account bank_carol (Authenticated 1) "carol" 3000 3);
    reflexivity.
Defined.

(** X16 at 30.00 from alice to bob. *)
Lemma transfer_notifies_both_witness :
  outbox (run (TransferMoneyView_post (Authenticated 1) (Some ("bob", 3000))) bank0).2
  = outbox bank0 ++ [mkEmail 1 3000 "Send Money" "transactions/send_money.html";
                     mkEmail 2 3000 "Recived Money" "transactions/receive_money.html"]
  ∧ flashed (run (TransferMoneyView_post (Authenticated 1) (Some ("bob", 3000))) bank0).2
    = flashed bank0.
Proof.
  apply (transfer_notifies_both bank0 1 2 3000 "bob" (mkAccount 11 10000) (mkAccount 22 0));
    [reflexivity | reflexivity | reflexivity | simpl; lia].
Defined.

(** X17 at 30.00 from alice to bob. *)
Lemma transfer_between_distinct_witness :
  transfer_done bank0
    (run (TransferMoneyView_post (Authenticated 1) (Some ("bob", 3000))) bank0).2
    1 2 3000 (mkAccount 11 10000) (mkAccount 22 0).
Proof.
  apply (transfer_between_distinct bank0 1 2 3000 "bob" (mkAccount 11 10000) (mkAccount 22 0));
    [reflexivity | reflexivity | reflexivity | simpl; lia | lia].
Defined.

(** X18 at 30.00 from alice to alice. *)
Lemma transfer_to_self_witness :
  balance <$> accounts
    (run (TransferMoneyView_post (Authenticated 1) (Some ("alice", 3000))) bank0).2 !! 1
  = Some (balance (mkAccount 11 10000) + 3000).
Proof.
  apply (transfer_to_self bank0 1 3000 "alice" (mkAccount 11 10000));
    [reflexivity | reflexivity | simpl; lia].
Defined.

(** X19 for alice in [bank_approved]. *)
Lemma loan_request_at_limit_witness :
  run (LoanRequestView_form_valid (Authenticated 1) 5000) bank_approved
  = (Raise (NameError "HttpResponse"), bank_approved).
Proof.
  apply (loan_request_at_limit bank_approved 1 5000 (mkAccount 11 10000));
    [reflexivity | vm_compute; lia].
Defined.

(** X20 at a withdrawal of 200.00 from alice's 100.00. *)
Lemma withdraw_debits_any_amount_witness :
  accounts (run (WithdrawMoneyView_form_valid (Authenticated 1) 20000) bank0).2
  = <[1 := mkAccount 11 (-10000)]> (accounts bank0).
Proof.
  destruct (withdraw_debits_any_amount bank0 1 20000 (mkAccount 11 10000) eq_refl)
    as (_ & Hacc & _).
  exact Hacc.
Defined.
